(** * Metasprint: the Monte Carlo comparison of meta-analysis workflows

    A shallow embedding of [compare_methods.py]: the [QualityMetrics] record
    and its derived [overall_quality], the three generators
    [simulate_traditional], [simulate_structured] and [simulate_metasprint],
    the trial loop [run_simulation], the aggregation [analyze_results] and
    the key findings computed by [print_comparison_table].

    Numbers.  Python's [float] fields are modelled by exact rationals [Q]:
    the development is about the arithmetic the program writes down.  The
    program itself rounds to binary64, so a bound that lies exactly at the
    end of a range of draws is stated of it up to a [tolerance], and the
    module [Binary64] evaluates the lines concerned bit for bit, on
    primitive floats.  The values numpy returns ([np.mean],
    [np.percentile]) are modelled by [float64]: an exact rational or one of
    the IEEE special values, because numpy scalars answer a division by zero
    with [inf] or [nan] where Python's own numbers raise.

    Randomness.  The module-level generator of [random] is an explicit
    state: a [RandomSource] gives [random()] and [_randbelow(n)], each
    returning the variate and the next state. *)

From Stdlib Require Import QArith Qminmax Qround Lqa ZArith List Bool Lia.
From Stdlib Require Import Sorted.
From Stdlib Require PrimFloat.
Import ListNotations.
Open Scope Q_scope.

(** ** Python numbers *)

(** [x < y] on floats. *)
Definition Qltb (x y : Q) : bool := negb (Qle_bool y x).

Infix "<?" := Qltb (at level 70, no associativity) : Q_scope.

(** The built-in [min(a, b)]: the first argument unless the second is
    strictly smaller. *)
Definition py_min (a b : Q) : Q := if b <? a then b else a.

(** The built-in [max(a, b)]: the first argument unless the second is
    strictly larger. *)
Definition py_max (a b : Q) : Q := if a <? b then b else a.

(** ** Exceptions *)

(** The built-in exception kinds that matter here.  [ZeroDivisionError] is
    raised by [/] on Python numbers, [KeyError] by a dict lookup;
    [ValueError] is the built-in kind for an invalid argument, which no
    function of the program raises. *)
Inductive exception : Type :=
| ZeroDivisionError
| KeyError
| ValueError.

Inductive pyresult (A : Type) : Type :=
| Ok (a : A)
| Raise (e : exception).

Arguments Ok {A} a.
Arguments Raise {A} e.

(** [a / b] on Python numbers. *)
Definition py_div (a b : Q) : pyresult Q :=
  if Qeq_bool b 0 then Raise ZeroDivisionError else Ok (a / b).

(** ** Monads: the random state, exceptions, and both *)

Class Monad (m : Type -> Type) : Type := {
  ret : forall {A}, A -> m A;
  bind : forall {A B}, m A -> (A -> m B) -> m B
}.

Notation "x <- c ;; k" := (bind c (fun x => k))
  (at level 61, c at next level, right associativity).

(** A computation that reads and advances a random state [G]. *)
Definition Rand (G A : Type) : Type := G -> A * G.

#[export] Instance Monad_Rand (G : Type) : Monad (Rand G) := {
  ret _ a := fun g => (a, g);
  bind _ _ c k := fun g => k (fst (c g)) (snd (c g))
}.

#[export] Instance Monad_pyresult : Monad pyresult := {
  ret _ a := Ok a;
  bind _ _ c k := match c with Ok a => k a | Raise e => Raise e end
}.

(** A computation on the random state that may raise. *)
Definition PyRand (G A : Type) : Type := G -> pyresult (A * G).

#[export] Instance Monad_PyRand (G : Type) : Monad (PyRand G) := {
  ret _ a := fun g => Ok (a, g);
  bind _ _ c k := fun g =>
    match c g with
    | Ok (a, g') => k a g'
    | Raise e => Raise e
    end
}.

Definition lift_rand {G A} (c : Rand G A) : PyRand G A :=
  fun g => Ok (c g).

Definition lift_py {G A} (r : pyresult A) : PyRand G A :=
  fun g => match r with Ok a => Ok (a, g) | Raise e => Raise e end.

(** ** The random source *)

(** [random g] is [random.random()], [randbelow n g] is
    [Random._randbelow(n)], the integer draw behind [random.randint]. *)
Class RandomSource (G : Type) : Type := {
  random : Rand G Q;
  randbelow : Z -> Rand G Z
}.

(** What the [random] module documents of its draws: [random()] lies in
    [[0, 1)] and [_randbelow(n)] in [[0, n)]. *)
Class RandomSourceOk (G : Type) `{RandomSource G} : Prop := {
  random_unit : forall g : G, 0 <= fst (random g) /\ fst (random g) < 1;
  randbelow_range : forall (n : Z) (g : G),
    (0 < n)%Z -> (0 <= fst (randbelow n g) < n)%Z
}.

Section Draws.
Context {G : Type} `{RandomSource G}.

(** [random.uniform(a, b)] is [a + (b - a) * self.random()]. *)
Definition uniform (a b : Q) : Rand G Q :=
  u <- random ;; ret (a + (b - a) * u).

(** [random.randint(a, b)] is [a + self._randbelow(b - a + 1)]. *)
Definition randint (a b : Z) : Rand G Z :=
  k <- randbelow (b - a + 1) ;; ret (a + k)%Z.

(** The state after [k] calls of [random()], and the variate the next
    call returns. *)
Fixpoint skip (k : nat) (g : G) : G :=
  match k with
  | O => g
  | S k' => snd (random (skip k' g))
  end.

Definition draw (k : nat) (g : G) : Q := fst (random (skip k g)).
End Draws.

(** ** Configuration *)

Inductive Method : Type :=
| TRADITIONAL
| STRUCTURED
| METASPRINT.

Definition Method_eqb (a b : Method) : bool :=
  match a, b with
  | TRADITIONAL, TRADITIONAL | STRUCTURED, STRUCTURED
  | METASPRINT, METASPRINT => true
  | _, _ => false
  end.

(** The dataclass, with its defaults. *)
Record QualityMetrics : Type := mkQualityMetrics {
  protocol_adherence : Q;
  data_accuracy : Q;
  reproducibility : Q;
  audit_readiness : Q;
  error_rate : Q;
  time_days : Z;
  grade_completed : bool;
  deviations_logged : bool
}.

Definition QualityMetrics_default : QualityMetrics :=
  mkQualityMetrics 0 0 0 0 0 0%Z false false.

(** Attribute assignment [metrics.f = v]. *)
Definition set_protocol_adherence (v : Q) (m : QualityMetrics) :=
  mkQualityMetrics v (data_accuracy m) (reproducibility m) (audit_readiness m)
    (error_rate m) (time_days m) (grade_completed m) (deviations_logged m).
Definition set_data_accuracy (v : Q) (m : QualityMetrics) :=
  mkQualityMetrics (protocol_adherence m) v (reproducibility m)
    (audit_readiness m) (error_rate m) (time_days m) (grade_completed m)
    (deviations_logged m).
Definition set_reproducibility (v : Q) (m : QualityMetrics) :=
  mkQualityMetrics (protocol_adherence m) (data_accuracy m) v
    (audit_readiness m) (error_rate m) (time_days m) (grade_completed m)
    (deviations_logged m).
Definition set_audit_readiness (v : Q) (m : QualityMetrics) :=
  mkQualityMetrics (protocol_adherence m) (data_accuracy m) (reproducibility m)
    v (error_rate m) (time_days m) (grade_completed m) (deviations_logged m).
Definition set_error_rate (v : Q) (m : QualityMetrics) :=
  mkQualityMetrics (protocol_adherence m) (data_accuracy m) (reproducibility m)
    (audit_readiness m) v (time_days m) (grade_completed m)
    (deviations_logged m).
Definition set_time_days (v : Z) (m : QualityMetrics) :=
  mkQualityMetrics (protocol_adherence m) (data_accuracy m) (reproducibility m)
    (audit_readiness m) (error_rate m) v (grade_completed m)
    (deviations_logged m).
Definition set_grade_completed (v : bool) (m : QualityMetrics) :=
  mkQualityMetrics (protocol_adherence m) (data_accuracy m) (reproducibility m)
    (audit_readiness m) (error_rate m) (time_days m) v (deviations_logged m).
Definition set_deviations_logged (v : bool) (m : QualityMetrics) :=
  mkQualityMetrics (protocol_adherence m) (data_accuracy m) (reproducibility m)
    (audit_readiness m) (error_rate m) (time_days m) (grade_completed m) v.

(** The [weights] dict of [overall_quality]. *)
Module weights.
Definition protocol_adherence : Q := 0.20.
Definition data_accuracy : Q := 0.25.
Definition reproducibility : Q := 0.20.
Definition audit_readiness : Q := 0.15.
Definition error_rate : Q := 0.20.
End weights.

(** The property [QualityMetrics.overall_quality]. *)
Definition overall_quality (self : QualityMetrics) : Q :=
  let score :=
    protocol_adherence self * weights.protocol_adherence +
    data_accuracy self * weights.data_accuracy +
    reproducibility self * weights.reproducibility +
    audit_readiness self * weights.audit_readiness +
    (1 - error_rate self) * weights.error_rate in
  let score := if grade_completed self then score + 0.05 else score in
  let score := if deviations_logged self then score + 0.05 else score in
  py_min (score * 100) 100.

(** The composite score as the specification words it: the weighted linear
    combination, a bonus of 0.05 before scaling for each flag that is set,
    scaled by 100 and capped at 100. *)
Definition spec_overall_quality (m : QualityMetrics) : Q :=
  let bonus (b : bool) : Q := if b then 0.05 else 0 in
  Qmin 100
    (100 * (0.20 * protocol_adherence m + 0.25 * data_accuracy m +
            0.20 * reproducibility m + 0.15 * audit_readiness m +
            0.20 * (1 - error_rate m) +
            bonus (grade_completed m) + bonus (deviations_logged m))).

(** ** Simulation models *)

Section Generators.
Context {G : Type} `{RandomSource G}.

Definition simulate_traditional (n_studies team_size : Z)
  : Rand G QualityMetrics :=
  protocol_drift <- uniform 0.3 0.5 ;;
  let metrics := QualityMetrics_default in
  u <- uniform 0.5 0.8 ;;
  let metrics := set_protocol_adherence (u - protocol_drift * 0.3) metrics in
  u <- uniform 0.7 0.9 ;;
  let metrics := set_data_accuracy u metrics in
  u <- uniform 0.3 0.6 ;;
  let metrics := set_reproducibility u metrics in
  u <- uniform 0.2 0.5 ;;
  let metrics := set_audit_readiness u metrics in
  u <- uniform 0.1 0.3 ;;
  let metrics := set_error_rate u metrics in
  d <- randint 90 365 ;;
  let metrics := set_time_days d metrics in
  r <- random ;;
  let metrics := set_grade_completed (r <? 0.4) metrics in
  r <- random ;;
  let metrics := set_deviations_logged (r <? 0.3) metrics in
  ret metrics.

Definition simulate_structured (n_studies team_size : Z)
  : Rand G QualityMetrics :=
  let metrics := QualityMetrics_default in
  u <- uniform 0.65 0.85 ;;
  let metrics := set_protocol_adherence u metrics in
  u <- uniform 0.75 0.92 ;;
  let metrics := set_data_accuracy u metrics in
  u <- uniform 0.5 0.75 ;;
  let metrics := set_reproducibility u metrics in
  u <- uniform 0.5 0.7 ;;
  let metrics := set_audit_readiness u metrics in
  u <- uniform 0.05 0.2 ;;
  let metrics := set_error_rate u metrics in
  d <- randint 60 180 ;;
  let metrics := set_time_days d metrics in
  r <- random ;;
  let metrics := set_grade_completed (r <? 0.6) metrics in
  r <- random ;;
  let metrics := set_deviations_logged (r <? 0.5) metrics in
  ret metrics.

Definition simulate_metasprint (n_studies team_size : Z)
  : Rand G QualityMetrics :=
  r <- random ;; let dod_a_pass := r <? 0.95 in
  r <- random ;; let dod_b_pass := r <? 0.92 in
  r <- random ;; let dod_c_pass := r <? 0.90 in
  r <- random ;; let dod_d_pass := r <? 0.88 in
  audit1_errors_caught <- uniform 0.6 0.9 ;;
  audit2_errors_caught <- uniform 0.7 0.95 ;;
  redteam_improvement <- uniform 0.05 0.15 ;;
  let metrics := QualityMetrics_default in
  u <- uniform 0.85 0.98 ;;
  let metrics := set_protocol_adherence u metrics in
  let metrics :=
    if negb dod_a_pass
    then set_protocol_adherence (protocol_adherence metrics - 0.1) metrics
    else metrics in
  base_accuracy <- uniform 0.85 0.95 ;;
  let metrics :=
    set_data_accuracy (py_min (base_accuracy + redteam_improvement) 0.99)
      metrics in
  u <- uniform 0.85 0.98 ;;
  let metrics := set_reproducibility u metrics in
  let metrics :=
    if negb dod_d_pass
    then set_reproducibility (reproducibility metrics - 0.1) metrics
    else metrics in
  u <- uniform 0.9 0.99 ;;
  let metrics := set_audit_readiness u metrics in
  initial_errors <- uniform 0.15 0.25 ;;
  let errors_after_audit1 := initial_errors * (1 - audit1_errors_caught) in
  let errors_after_audit2 :=
    errors_after_audit1 * (1 - audit2_errors_caught) in
  let metrics := set_error_rate (py_max errors_after_audit2 0.01) metrics in
  r <- random ;; let condgo_triggered := r <? 0.15 in
  let metrics :=
    set_time_days (if condgo_triggered then 45 else 40)%Z metrics in
  let metrics := set_grade_completed true metrics in
  let metrics := set_deviations_logged true metrics in
  ret metrics.
End Generators.

(** ** Dicts keyed by [Method] *)

(** A dict in insertion order, which is the order [items()] iterates in. *)
Definition dict (V : Type) : Type := list (Method * V).

(** [d[k]] *)
Fixpoint getitem {V : Type} (d : dict V) (k : Method) : pyresult V :=
  match d with
  | [] => Raise KeyError
  | (k', v) :: d' => if Method_eqb k k' then Ok v else getitem d' k
  end.

(** [d[k] = v]: an existing key keeps its place, a new one goes last. *)
Fixpoint setitem {V : Type} (d : dict V) (k : Method) (v : V) : dict V :=
  match d with
  | [] => [(k, v)]
  | (k', v') :: d' =>
      if Method_eqb k k' then (k, v) :: d' else (k', v') :: setitem d' k v
  end.

(** ** Monte Carlo simulation *)

Section TrialRunner.
Context {G : Type} `{RandomSource G}.

(** [results[method].append(generator())]: the lookup comes first, then
    the call, then the append to the list the dict holds. *)
Definition append_trial (method : Method) (generator : Rand G QualityMetrics)
    (results : dict (list QualityMetrics))
  : PyRand G (dict (list QualityMetrics)) :=
  l <- lift_py (getitem results method) ;;
  m <- lift_rand generator ;;
  ret (setitem results method (l ++ [m])).

(** The body of [for _ in range(n_iterations)], [n] times.  The generators
    are called with their default arguments. *)
Fixpoint run_simulation_loop (n : nat) (results : dict (list QualityMetrics))
  : PyRand G (dict (list QualityMetrics)) :=
  match n with
  | O => ret results
  | S n' =>
      results <- append_trial TRADITIONAL (simulate_traditional 40 6)
                   results ;;
      results <- append_trial STRUCTURED (simulate_structured 40 6)
                   results ;;
      results <- append_trial METASPRINT (simulate_metasprint 40 12)
                   results ;;
      run_simulation_loop n' results
  end.

(** [range(n)] is empty when [n <= 0]. *)
Definition run_simulation (n_iterations : Z)
  : PyRand G (dict (list QualityMetrics)) :=
  let results := [(TRADITIONAL, []); (STRUCTURED, []); (METASPRINT, [])] in
  run_simulation_loop (Z.to_nat n_iterations) results.
End TrialRunner.

(** ** numpy scalars *)

(** A [np.float64]: an exact value or an IEEE special value.  Zero carries
    no sign here. *)
Inductive float64 : Type :=
| Fin (q : Q)
| Inf (negative : bool)
| NaN.

Definition Qneg (q : Q) : bool := q <? 0.

Definition np_sub (x y : float64) : float64 :=
  match x, y with
  | NaN, _ | _, NaN => NaN
  | Inf s, Inf t => if Bool.eqb s t then NaN else Inf s
  | Inf s, Fin _ => Inf s
  | Fin _, Inf t => Inf (negb t)
  | Fin a, Fin b => Fin (a - b)
  end.

Definition np_mul (x y : float64) : float64 :=
  match x, y with
  | NaN, _ | _, NaN => NaN
  | Inf s, Inf t => Inf (xorb s t)
  | Inf s, Fin b | Fin b, Inf s =>
      if Qeq_bool b 0 then NaN else Inf (xorb s (Qneg b))
  | Fin a, Fin b => Fin (a * b)
  end.

(** Division never raises on numpy scalars: a zero divisor gives [nan] for
    a zero dividend and an infinity otherwise (with a [RuntimeWarning]). *)
Definition np_div (x y : float64) : float64 :=
  match x, y with
  | NaN, _ | _, NaN => NaN
  | Inf _, Inf _ => NaN
  | Inf s, Fin b => Inf (xorb s (Qneg b))
  | Fin _, Inf _ => Fin 0
  | Fin a, Fin b =>
      if Qeq_bool b 0
      then if Qeq_bool a 0 then NaN else Inf (Qneg a)
      else Fin (a / b)
  end.

Definition is_finite (x : float64) : bool :=
  match x with Fin _ => true | _ => false end.

(** A standard deviation is kept as the number it is the square root of. *)
Record root : Type := Sqrt { radicand : float64 }.

Definition Qsum (xs : list Q) : Q := fold_right Qplus 0 xs.

Definition len {A : Type} (xs : list A) : Q := inject_Z (Z.of_nat (length xs)).

(** [np.mean]: [nan] on an empty list. *)
Definition np_mean (xs : list Q) : float64 :=
  match xs with
  | [] => NaN
  | _ => Fin (Qsum xs / len xs)
  end.

(** [np.std]: the population standard deviation. *)
Definition np_std (xs : list Q) : root :=
  match xs with
  | [] => Sqrt NaN
  | _ =>
      let mu := Qsum xs / len xs in
      Sqrt (Fin (Qsum (map (fun x => (x - mu) * (x - mu)) xs) / len xs))
  end.

Fixpoint insert_sorted (x : Q) (xs : list Q) : list Q :=
  match xs with
  | [] => [x]
  | y :: ys => if Qle_bool x y then x :: xs else y :: insert_sorted x ys
  end.

Definition sorted (xs : list Q) : list Q := fold_right insert_sorted [] xs.

(** [np.percentile(xs, q)] with the default linear interpolation. *)
Definition np_percentile (xs : list Q) (q : Q) : float64 :=
  match sorted xs with
  | [] => NaN
  | (x0 :: _) as s =>
      let n := Z.of_nat (length s) in
      let pos := inject_Z (n - 1) * (q / 100) in
      let lo := Qfloor pos in
      let hi := Z.min (lo + 1) (n - 1) in
      let a := nth (Z.to_nat lo) s x0 in
      let b := nth (Z.to_nat hi) s x0 in
      Fin (a + (b - a) * (pos - inject_Z lo))
  end.

(** ** Aggregation *)

Record Summary : Type := mkSummary {
  quality_mean : float64;
  quality_std : root;
  quality_95ci : float64 * float64;
  error_rate_mean : float64;
  error_rate_std : root;
  time_mean : float64;
  time_std : root;
  reproducibility_mean : float64;
  grade_completion : Q
}.

(** The body of the loop of [analyze_results] for one method. *)
Definition analyze_results_body (metrics_list : list QualityMetrics)
  : pyresult Summary :=
  let quality_scores := map overall_quality metrics_list in
  let error_rates := map (fun m => error_rate m * 100) metrics_list in
  let times := map (fun m => inject_Z (time_days m)) metrics_list in
  let reproducibility := map (fun m => reproducibility m * 100) metrics_list in
  r <- py_div (len (filter grade_completed metrics_list)) (len metrics_list) ;;
  let grade_pct := r * 100 in
  ret (mkSummary
         (np_mean quality_scores)
         (np_std quality_scores)
         (np_percentile quality_scores 2.5, np_percentile quality_scores 97.5)
         (np_mean error_rates)
         (np_std error_rates)
         (np_mean times)
         (np_std times)
         (np_mean reproducibility)
         grade_pct).

Fixpoint analyze_results_loop (items : dict (list QualityMetrics))
    (summary : dict Summary) : pyresult (dict Summary) :=
  match items with
  | [] => ret summary
  | (method, metrics_list) :: items' =>
      s <- analyze_results_body metrics_list ;;
      analyze_results_loop items' (setitem summary method s)
  end.

Definition analyze_results (results : dict (list QualityMetrics))
  : pyresult (dict Summary) :=
  analyze_results_loop results [].

(** ** Comparison *)

(** The values [print_comparison_table] prints under KEY FINDINGS. *)
Record KeyFindings : Type := mkKeyFindings {
  quality_improvement : float64;
  error_reduction : float64;
  time_reduction : float64;
  repro_improvement : float64;
  grade_completion_pair : Q * Q
}.

(** [print_comparison_table]: the table reads [summary[method]] for the
    three methods, then the key findings are computed from the traditional
    and the META-SPRINT summaries.  The text printed is left out. *)
Definition print_comparison_table (summary : dict Summary)
  : pyresult KeyFindings :=
  _ <- getitem summary TRADITIONAL ;;
  _ <- getitem summary STRUCTURED ;;
  _ <- getitem summary METASPRINT ;;
  trad <- getitem summary TRADITIONAL ;;
  sprint <- getitem summary METASPRINT ;;
  let quality_improvement :=
    np_mul (np_div (np_sub (quality_mean sprint) (quality_mean trad))
                   (quality_mean trad)) (Fin 100) in
  let error_reduction :=
    np_mul (np_div (np_sub (error_rate_mean trad) (error_rate_mean sprint))
                   (error_rate_mean trad)) (Fin 100) in
  let time_reduction :=
    np_mul (np_div (np_sub (time_mean trad) (time_mean sprint))
                   (time_mean trad)) (Fin 100) in
  let repro_improvement :=
    np_mul (np_div (np_sub (reproducibility_mean sprint)
                           (reproducibility_mean trad))
                   (reproducibility_mean trad)) (Fin 100) in
  ret (mkKeyFindings quality_improvement error_reduction time_reduction
         repro_improvement (grade_completion sprint, grade_completion trad)).

(** ** A scripted random source *)

(** A test double for the generator: the state is the list of the draws to
    come, in thousandths.  [random()] answers the head over 1000 and
    [_randbelow(n)] the head modulo [n]; an exhausted script answers 0. *)
Module Scripted.
Definition state : Type := list Z.

Definition random (g : state) : Q * state :=
  match g with
  | [] => (0, [])
  | k :: g' => (inject_Z (k mod 1000) / 1000, g')
  end.

Definition randbelow (n : Z) (g : state) : Z * state :=
  match g with
  | [] => (0%Z, [])
  | k :: g' => ((k mod n)%Z, g')
  end.
End Scripted.

#[export] Instance Scripted_source : RandomSource Scripted.state := {
  random := Scripted.random;
  randbelow := Scripted.randbelow
}.


(** ** Documented domains *)

Definition in_unit (x : Q) : Prop := 0 <= x /\ x <= 1.

(** Every probability-like field in [[0, 1]] and the composite score in
    [[0, 100]]. *)
Definition in_domain (m : QualityMetrics) : Prop :=
  in_unit (protocol_adherence m) /\
  in_unit (data_accuracy m) /\
  in_unit (reproducibility m) /\
  in_unit (audit_readiness m) /\
  in_unit (error_rate m) /\
  0 <= overall_quality m /\ overall_quality m <= 100.

(** Both mandatory flags set. *)
Definition flags_set (m : QualityMetrics) : Prop :=
  grade_completed m = true /\ deviations_logged m = true.

Definition is_zero (x : float64) : bool :=
  match x with Fin q => Qeq_bool q 0 | _ => false end.

(** ** Sample inputs *)

(** Thirteen draws for one gated trial: every gate passes. *)
Definition script_gates_pass : Scripted.state :=
  [500; 100; 100; 100; 500; 500; 500; 500; 500; 500; 500; 500; 900]%Z.

(** The same draws, but the second and third gates (search lock and
    extraction lock) fail: 0.93 is not below 0.92, 0.95 not below 0.90. *)
Definition script_gates_b_c_fail : Scripted.state :=
  [500; 930; 950; 100; 500; 500; 500; 500; 500; 500; 500; 500; 900]%Z.

(** Draws for one trial of each kind, and extreme draws for the gated error
    rate: nothing caught by either audit, the largest initial rate. *)
Definition script_mixed : Scripted.state :=
  [137; 512; 908; 44; 671; 250; 999; 3; 760; 425; 88; 613; 941]%Z.

Definition script_worst_errors : Scripted.state :=
  [137; 512; 908; 44; 0; 0; 999; 3; 760; 425; 88; 999; 941]%Z.

(** The dict [run_simulation] starts from. *)
Definition empty_results : dict (list QualityMetrics) :=
  [(TRADITIONAL, []); (STRUCTURED, []); (METASPRINT, [])].

(** One record per method; the baseline record is [QualityMetrics()], whose
    error rate, duration and reproducibility are zero. *)
Definition zero_baseline_results : dict (list QualityMetrics) :=
  [(TRADITIONAL, [QualityMetrics_default]);
   (STRUCTURED, [QualityMetrics_default]);
   (METASPRINT, [mkQualityMetrics 0.9 0.9 0 0.9 0.01 40 true true])].

(** The summary of the single record [QualityMetrics()], and a summary of
    one gated record; together, a summary dict with a zero baseline. *)
Definition summary_of_default : Summary :=
  mkSummary (Fin 20) (Sqrt (Fin 0)) (Fin 20, Fin 20) (Fin 0) (Sqrt (Fin 0))
    (Fin 0) (Sqrt (Fin 0)) (Fin 0) 0.

Definition summary_of_gated : Summary :=
  mkSummary (Fin 93) (Sqrt (Fin 0)) (Fin 93, Fin 93) (Fin 1) (Sqrt (Fin 0))
    (Fin 40) (Sqrt (Fin 0)) (Fin 91.5) 100.

Definition zero_baseline_summary : dict Summary :=
  [(TRADITIONAL, summary_of_default); (STRUCTURED, summary_of_default);
   (METASPRINT, summary_of_gated)].

(** ** Ranges of the generators *)

Definition between (lo hi x : Q) : Prop := lo <= x /\ x <= hi.

(** The ranges the draws of [simulate_traditional] span; the adherence
    range is that of [uniform(0.5, 0.8)] less 0.3 times the drift of
    [uniform(0.3, 0.5)]. *)
Definition traditional_range (m : QualityMetrics) : Prop :=
  between 0.35 0.71 (protocol_adherence m) /\
  between 0.7 0.9 (data_accuracy m) /\
  between 0.3 0.6 (reproducibility m) /\
  between 0.2 0.5 (audit_readiness m) /\
  between 0.1 0.3 (error_rate m) /\
  (90 <= time_days m <= 365)%Z.

Definition structured_range (m : QualityMetrics) : Prop :=
  between 0.65 0.85 (protocol_adherence m) /\
  between 0.75 0.92 (data_accuracy m) /\
  between 0.5 0.75 (reproducibility m) /\
  between 0.5 0.7 (audit_readiness m) /\
  between 0.05 0.2 (error_rate m) /\
  (60 <= time_days m <= 180)%Z.

(** For [simulate_metasprint] the penalties of 0.1 lower the adherence and
    reproducibility ranges to 0.75, the accuracy is capped at 0.99 and the
    error rate floored at 0.01. *)
Definition metasprint_range (m : QualityMetrics) : Prop :=
  between 0.75 0.98 (protocol_adherence m) /\
  between 0.9 0.99 (data_accuracy m) /\
  between 0.75 0.98 (reproducibility m) /\
  between 0.9 0.99 (audit_readiness m) /\
  between 0.01 0.03 (error_rate m) /\
  (time_days m = 40 \/ time_days m = 45)%Z /\
  flags_set m.

(** ** Rounding *)

(** The program computes in binary64 and the model in exact rationals.  A
    statement about a value the program has rounded allows for this
    tolerance: far above the rounding error of the few operations of a
    trial, far below every margin at stake. *)
Definition tolerance : Q := 0.000000001.

(** [x] in [[lo, hi]], up to the tolerance. *)
Definition within (lo hi x : Q) : Prop :=
  lo - tolerance <= x /\ x <= hi + tolerance.

(** The ranges of the three generators, up to the tolerance; durations and
    flags are exact. *)
Definition traditional_profile (m : QualityMetrics) : Prop :=
  within 0.35 0.71 (protocol_adherence m) /\
  within 0.7 0.9 (data_accuracy m) /\
  within 0.3 0.6 (reproducibility m) /\
  within 0.2 0.5 (audit_readiness m) /\
  within 0.1 0.3 (error_rate m) /\
  (90 <= time_days m <= 365)%Z.

Definition structured_profile (m : QualityMetrics) : Prop :=
  within 0.65 0.85 (protocol_adherence m) /\
  within 0.75 0.92 (data_accuracy m) /\
  within 0.5 0.75 (reproducibility m) /\
  within 0.5 0.7 (audit_readiness m) /\
  within 0.05 0.2 (error_rate m) /\
  (60 <= time_days m <= 180)%Z.

Definition metasprint_profile (m : QualityMetrics) : Prop :=
  within 0.75 0.98 (protocol_adherence m) /\
  within 0.9 0.99 (data_accuracy m) /\
  within 0.75 0.98 (reproducibility m) /\
  within 0.9 0.99 (audit_readiness m) /\
  within 0.01 0.03 (error_rate m) /\
  (time_days m = 40 \/ time_days m = 45)%Z /\
  flags_set m.

(** ** The same lines in binary64 *)

(** The arithmetic of [simulate_metasprint] on the error rate (lines 144,
    145 and 170 to 173) and of [simulate_traditional] on the adherence
    (lines 83 and 86), operation by operation on IEEE 754 binary64 numbers,
    as functions of the variates [random()] returned. *)
Module Binary64.
Import PrimFloat.
#[local] Open Scope float_scope.
#[local] Set Warnings "-inexact-float".

(** [random.uniform(a, b)] on the variate [u]. *)
Definition uniform (a b u : float) : float := a + (b - a) * u.

(** The built-in [max(a, b)]. *)
Definition py_max (a b : float) : float := if a <? b then b else a.

Definition gated_error_rate (u_audit1 u_audit2 u_initial : float) : float :=
  let audit1_errors_caught := uniform 0.6 0.9 u_audit1 in
  let audit2_errors_caught := uniform 0.7 0.95 u_audit2 in
  let initial_errors := uniform 0.15 0.25 u_initial in
  let errors_after_audit1 := initial_errors * (1 - audit1_errors_caught) in
  let errors_after_audit2 :=
    errors_after_audit1 * (1 - audit2_errors_caught) in
  py_max errors_after_audit2 0.01.

Definition baseline_protocol_adherence (u_drift u_base : float) : float :=
  let protocol_drift := uniform 0.3 0.5 u_drift in
  uniform 0.5 0.8 u_base - protocol_drift * 0.3.

(** The smallest variate, and the largest one below 1: [1 - 2^-53]. *)
Definition smallest_draw : float := 0.
Definition largest_draw : float := 0x1.fffffffffffffp-1.

(** [x > y] and [x <= y] on binary64 numbers. *)
Definition exceeds (x y : float) : bool := y <? x.
Definition at_most (x y : float) : bool := x <=? y.

(** The literals 0.03 and 0.71, and 0.03 with the tolerance. *)
Definition three_hundredths : float := 0.03.
Definition seventy_one_hundredths : float := 0.71.
Definition three_hundredths_and_tolerance : float := 0.030000001.
End Binary64.

(** ** Comparing numpy scalars *)

(** Equality of [np.float64] values, up to the representation of the
    rational. *)
Definition float64_eq (x y : float64) : Prop :=
  match x, y with
  | Fin a, Fin b => a == b
  | Inf s, Inf t => s = t
  | NaN, NaN => True
  | _, _ => False
  end.

(** A finite value within bounds. *)
Definition float64_between (lo hi : Q) (x : float64) : Prop :=
  match x with
  | Fin q => lo <= q /\ q <= hi
  | _ => False
  end.

(** A finite, strictly positive value. *)
Definition float64_positive (x : float64) : Prop :=
  match x with
  | Fin q => 0 < q
  | _ => False
  end.

(** The keys of a dict, in order. *)
Definition keys {V : Type} (d : dict V) : list Method := map fst d.

(** The summaries [analyze_results] has made when its loop ends: one per
    item, under the item's key. *)
Definition summarised (item : Method * list QualityMetrics)
    (entry : Method * Summary) : Prop :=
  fst entry = fst item /\ analyze_results_body (snd item) = Ok (snd entry).



(** Order on finite [np.float64] values. *)
Definition float64_le (x y : float64) : Prop :=
  match x, y with
  | Fin a, Fin b => a <= b
  | _, _ => False
  end.

(** The linear interpolation [np.percentile] makes in a sorted non-empty
    list [s], [d] being its first element. *)
Definition interpolate (s : list Q) (d q : Q) : Q :=
  let n := Z.of_nat (length s) in
  let pos := inject_Z (n - 1) * (q / 100) in
  let lo := Qfloor pos in
  let hi := Z.min (lo + 1) (n - 1) in
  let a := nth (Z.to_nat lo) s d in
  let b := nth (Z.to_nat hi) s d in
  a + (b - a) * (pos - inject_Z lo).

(** Two records by hand: a weak baseline-like one and a strong gated-like
    one. *)
Definition sample_baseline_record : QualityMetrics :=
  mkQualityMetrics 0.5 0.7 0.4 0.3 0.2 120 false true.

Definition sample_gated_record : QualityMetrics :=
  mkQualityMetrics 0.9 0.9 0.9 0.9 0.01 40 true true.
(** * Properties *)

(** ** Comparisons, [min] and [max] *)

Lemma Qltb_lt (x y : Q) : (x <? y) = true <-> x < y.
Proof.
  unfold Qltb. rewrite negb_true_iff.
  split; intros Hxy.
  - apply Qnot_le_lt. intros Hle. apply Qle_bool_iff in Hle. congruence.
  - destruct (Qle_bool y x) eqn:E; trivial.
    apply Qle_bool_iff in E. lra.
Qed.

Lemma Qltb_ge (x y : Q) : (x <? y) = false <-> y <= x.
Proof.
  unfold Qltb. rewrite negb_false_iff. apply Qle_bool_iff.
Qed.

Lemma Qltb_cases (x y : Q) :
  (x <? y) = true /\ x < y \/ (x <? y) = false /\ y <= x.
Proof.
  destruct (x <? y) eqn:E.
  - left. split; trivial. now apply Qltb_lt.
  - right. split; trivial. now apply Qltb_ge.
Qed.

Lemma py_min_Qmin (a b : Q) : py_min a b == Qmin a b.
Proof.
  unfold py_min.
  destruct (Qltb_cases b a) as [[-> Hlt] | [-> Hge]].
  - rewrite Q.min_r; lra.
  - rewrite Q.min_l; lra.
Qed.

Lemma py_max_Qmax (a b : Q) : py_max a b == Qmax a b.
Proof.
  unfold py_max.
  destruct (Qltb_cases a b) as [[-> Hlt] | [-> Hge]].
  - rewrite Q.max_r; lra.
  - rewrite Q.max_l; lra.
Qed.

Lemma py_min_bounds (a b lo : Q) :
  lo <= a -> lo <= b -> lo <= py_min a b /\ py_min a b <= b /\ py_min a b <= a.
Proof.
  intros Ha Hb. unfold py_min.
  destruct (Qltb_cases b a) as [[-> Hlt] | [-> Hge]]; lra.
Qed.

Lemma py_max_bounds (a b : Q) :
  b <= py_max a b /\ a <= py_max a b /\ (py_max a b == a \/ py_max a b == b).
Proof.
  unfold py_max.
  destruct (Qltb_cases a b) as [[-> Hlt] | [-> Hge]]; lra.
Qed.

(** ** The model on concrete inputs *)

Example overall_quality_of_default :
  overall_quality QualityMetrics_default == 20.
Proof. reflexivity. Qed.

Example overall_quality_is_capped :
  overall_quality (mkQualityMetrics 1 1 1 1 0 40 true true) == 100.
Proof. reflexivity. Qed.

Example np_percentile_interpolates :
  match np_percentile [3; 2; 5; 1; 4] 2.5 with
  | Fin q => q == 1.1
  | _ => False
  end.
Proof. reflexivity. Qed.

Example np_mean_of_empty : np_mean [] = NaN.
Proof. reflexivity. Qed.

(** A failed first gate: 0.96 is not below 0.95, and the base draw
    0.85 + 0.13 * 0.5 loses 0.1. *)
Example failed_first_gate_is_penalised :
  protocol_adherence
    (fst (simulate_metasprint 40 12
            [960; 100; 100; 100; 500; 500; 500; 500; 500; 500; 500; 500;
             900]%Z))
  == 0.815.
Proof. reflexivity. Qed.

Example one_trial_of_each_method :
  match run_simulation 1 (script_mixed ++ script_mixed ++ script_mixed) with
  | Ok ([(TRADITIONAL, [_]); (STRUCTURED, [_]); (METASPRINT, [m])], _) =>
      time_days m = 45%Z
  | _ => False
  end.
Proof. vm_compute. reflexivity. Qed.

(** ** The composite score *)

(** C3: for every record, [overall_quality] is the weighted combination
    0.20 adherence + 0.25 accuracy + 0.20 reproducibility + 0.15 audit
    readiness + 0.20 (1 - error rate), plus 0.05 for each of the two flags
    that is set, times 100 and capped at 100. *)
Theorem overall_quality_weighted_sum (m : QualityMetrics) :
  overall_quality m == spec_overall_quality m.
Proof.
  unfold overall_quality, spec_overall_quality.
  rewrite py_min_Qmin, Q.min_comm.
  unfold weights.protocol_adherence, weights.data_accuracy,
    weights.reproducibility, weights.audit_readiness, weights.error_rate.
  apply Q.min_compat; [reflexivity|].
  destruct (grade_completed m), (deviations_logged m); ring.
Qed.

(** ** The draws *)

Section DrawRanges.
Context {G : Type} `{RandomSourceOk G}.

Lemma uniform_range (a b : Q) (g : G) :
  a <= b ->
  a <= fst (uniform a b g) /\ fst (uniform a b g) <= b /\
  (a < b -> fst (uniform a b g) < b).
Proof.
  intros Hab. cbn.
  destruct (random_unit g) as [Hlo Hhi].
  set (u := fst (random g)) in *.
  repeat split; intros; nra.
Qed.
End DrawRanges.

Lemma Scripted_random_unit (g : Scripted.state) :
  0 <= fst (Scripted.random g) /\ fst (Scripted.random g) < 1.
Proof.
  destruct g as [|k g]; cbn [Scripted.random fst]; [lra|].
  pose proof (Z.mod_pos_bound k 1000 eq_refl) as [Hlo Hhi].
  unfold Qdiv, Qmult, Qle, Qlt, inject_Z; cbn. lia.
Qed.

#[export] Instance Scripted_ok : RandomSourceOk Scripted.state.
Proof.
  split.
  - exact Scripted_random_unit.
  - intros n [|k g] Hn; cbn; [lia|]. now apply Z.mod_pos_bound.
Qed.

(** ** Generated records stay in their domains *)

Lemma overall_quality_range (m : QualityMetrics) :
  in_unit (protocol_adherence m) -> in_unit (data_accuracy m) ->
  in_unit (reproducibility m) -> in_unit (audit_readiness m) ->
  in_unit (error_rate m) ->
  0 <= overall_quality m /\ overall_quality m <= 100.
Proof.
  unfold in_unit. intros Hp Hd Hr Ha He.
  unfold overall_quality, weights.protocol_adherence, weights.data_accuracy,
    weights.reproducibility, weights.audit_readiness, weights.error_rate.
  match goal with |- 0 <= py_min ?s _ /\ _ =>
    assert (Hs : 0 <= s)
      by (destruct (grade_completed m), (deviations_logged m); lra);
    destruct (py_min_bounds s 100 0 Hs) as (? & ? & ?); [lra|]
  end.
  split; assumption.
Qed.

Lemma in_domain_intro (m : QualityMetrics) :
  in_unit (protocol_adherence m) -> in_unit (data_accuracy m) ->
  in_unit (reproducibility m) -> in_unit (audit_readiness m) ->
  in_unit (error_rate m) -> in_domain m.
Proof.
  intros Hp Hd Hr Ha He. unfold in_domain.
  pose proof (overall_quality_range m Hp Hd Hr Ha He) as [? ?].
  repeat split; first [assumption | apply Hp | apply Hd | apply Hr
                      | apply Ha | apply He].
Qed.

(** Name the variate of every [random()] call in the goal and keep its
    bounds. *)
Ltac name_draws :=
  repeat match goal with
  | |- context [fst (random ?g)] =>
      let u := fresh "u" in
      let Hu := fresh "Hu" in
      pose proof (random_unit g) as Hu;
      revert Hu; generalize (fst (random g)); intros u Hu
  end.

(** Decide every gate in the goal. *)
Ltac split_gates :=
  repeat match goal with
  | |- context [negb (?x <? ?y)] => destruct (x <? y)
  end.

Section GeneratorRanges.
Context {G : Type} `{RandomSourceOk G}.

Lemma simulate_traditional_in_domain (n_studies team_size : Z) (g : G) :
  in_domain (fst (simulate_traditional n_studies team_size g)).
Proof.
  apply in_domain_intro; cbn; name_draws; unfold in_unit; lra.
Qed.

Lemma simulate_structured_in_domain (n_studies team_size : Z) (g : G) :
  in_domain (fst (simulate_structured n_studies team_size g)).
Proof.
  apply in_domain_intro; cbn; name_draws; unfold in_unit; lra.
Qed.
End GeneratorRanges.

(** ** The gated generator *)

Lemma residual_product_bound (e b c : Q) :
  0 <= e -> e < 0.25 -> 0 < b -> b <= 0.4 -> 0 < c -> c <= 0.3 ->
  0 <= e * b * c /\ e * b * c < 0.03.
Proof.
  intros He0 He1 Hb0 Hb1 Hc0 Hc1.
  assert (Hlo : 0 <= e * b) by nra.
  assert (Hhi : e * b < 0.1) by nra.
  set (p := e * b) in *.
  split; nra.
Qed.

Section GatedRanges.
Context {G : Type} `{RandomSourceOk G}.

Lemma simulate_metasprint_error_rate (n_studies team_size : Z) (g : G) :
  0.01 <= error_rate (fst (simulate_metasprint n_studies team_size g)) /\
  error_rate (fst (simulate_metasprint n_studies team_size g)) < 0.03.
Proof.
  cbn.
  match goal with |- _ <= py_max ?x _ /\ _ =>
    destruct (py_max_bounds x 0.01) as (Hfloor & _ & Hcase);
    assert (Hx : x < 0.03)
  end.
  { name_draws.
    match goal with |- ?e * ?b * ?c < _ =>
      apply (residual_product_bound e b c); lra
    end. }
  split; [assumption|].
  destruct Hcase as [-> | ->]; [assumption | lra].
Qed.

Lemma simulate_metasprint_in_domain (n_studies team_size : Z) (g : G) :
  in_domain (fst (simulate_metasprint n_studies team_size g)).
Proof.
  pose proof (simulate_metasprint_error_rate n_studies team_size g)
    as [Helo Hehi].
  apply in_domain_intro; [| | | |unfold in_unit; lra]; clear Helo Hehi.
  all: cbn; split_gates; cbn; name_draws.
  all: try match goal with |- in_unit (py_min ?a ?b) =>
      assert (Ha : 0 <= a) by lra;
      destruct (py_min_bounds a b 0 Ha) as (? & ? & ?); [lra|]
    end.
  all: unfold in_unit; lra.
Qed.
End GatedRanges.

(** C4: every record of the three generators has its five probability-like
    fields in [[0, 1]] and its [overall_quality] in [[0, 100]], whatever the
    state of the random source and the structural parameters. *)
Theorem generated_records_in_domain {G : Type} `{RandomSourceOk G}
    (n_studies team_size : Z) (g : G) :
  in_domain (fst (simulate_traditional n_studies team_size g)) /\
  in_domain (fst (simulate_structured n_studies team_size g)) /\
  in_domain (fst (simulate_metasprint n_studies team_size g)).
Proof.
  split; [|split].
  - apply simulate_traditional_in_domain.
  - apply simulate_structured_in_domain.
  - apply simulate_metasprint_in_domain.
Qed.

Lemma generated_records_in_domain_witness :
  RandomSourceOk Scripted.state /\
  in_domain (fst (simulate_traditional 40 6 script_mixed)) /\
  in_domain (fst (simulate_structured 40 6 script_mixed)) /\
  in_domain (fst (simulate_metasprint 40 6 script_mixed)).
Proof.
  split; [exact Scripted_ok|].
  apply (generated_records_in_domain (G := Scripted.state) 40 6 script_mixed).
Defined.

(** C10, as stated, fails of the program: in binary64, with nothing caught
    by either audit and the largest initial draw, the gated error rate is
    0.030000000000000006, above 0.03; the exact product 0.25 * 0.4 * 0.3 is
    rounded upwards on the way. *)
Lemma gated_error_rate_exceeds_bound_binary64 :
  Binary64.exceeds
    (Binary64.gated_error_rate Binary64.smallest_draw Binary64.smallest_draw
       Binary64.largest_draw)
    Binary64.three_hundredths = true /\
  Binary64.at_most
    (Binary64.gated_error_rate Binary64.smallest_draw Binary64.smallest_draw
       Binary64.largest_draw)
    Binary64.three_hundredths_and_tolerance = true.
Proof.
  split; vm_compute; reflexivity.
Qed.

(** C10, amended: the gated error rate is at least 0.01 and at most 0.03
    up to rounding (0.03 plus the tolerance), so it is strictly below every
    error rate of the baseline generator (at least 0.1) and of the
    structured generator (at least 0.05). *)
Theorem gated_error_rate_below_others {G : Type} `{RandomSourceOk G}
    (n_studies team_size : Z) (g gs gt : G) :
  let gated := error_rate (fst (simulate_metasprint n_studies team_size g)) in
  let structured :=
    error_rate (fst (simulate_structured n_studies team_size gs)) in
  let baseline :=
    error_rate (fst (simulate_traditional n_studies team_size gt)) in
  (0.01 <= gated /\ gated <= 0.03 + tolerance) /\
  0.05 <= structured /\ 0.1 <= baseline /\
  gated < structured /\ gated < baseline.
Proof.
  intros gated structured baseline.
  destruct (simulate_metasprint_error_rate n_studies team_size g)
    as [Hlo Hhi].
  fold gated in Hlo, Hhi.
  assert (Hs : 0.05 <= structured)
    by (subst structured; cbn; name_draws; lra).
  assert (Hb : 0.1 <= baseline)
    by (subst baseline; cbn; name_draws; lra).
  unfold tolerance. repeat split; lra.
Qed.

Lemma gated_error_rate_below_others_witness :
  RandomSourceOk Scripted.state /\
  (0.01 <= error_rate (fst (simulate_metasprint 40 12 script_worst_errors)) /\
   error_rate (fst (simulate_metasprint 40 12 script_worst_errors)) <=
     0.03 + tolerance) /\
  0.05 <= error_rate (fst (simulate_structured 40 12 script_mixed)) /\
  0.1 <= error_rate (fst (simulate_traditional 40 12 script_mixed)) /\
  error_rate (fst (simulate_metasprint 40 12 script_worst_errors)) <
    error_rate (fst (simulate_structured 40 12 script_mixed)) /\
  error_rate (fst (simulate_metasprint 40 12 script_worst_errors)) <
    error_rate (fst (simulate_traditional 40 12 script_mixed)).
Proof.
  split; [exact Scripted_ok|].
  apply (gated_error_rate_below_others (G := Scripted.state) 40 12
           script_worst_errors script_mixed script_mixed).
Defined.

(** C6: the gated error rate is the initial uniform draw times
    [1 - catch1] and then times [1 - catch2], the two audit catch fractions
    being uniform draws of their own, floored at 0.01; hence it is never
    zero. *)
Theorem gated_error_rate_formula {G : Type} `{RandomSource G}
    (n_studies team_size : Z) (g : G) :
  let catch1 := fst (uniform 0.6 0.9 (skip 4 g)) in
  let catch2 := fst (uniform 0.7 0.95 (skip 5 g)) in
  let initial_errors := fst (uniform 0.15 0.25 (skip 11 g)) in
  let after_audit1 := initial_errors * (1 - catch1) in
  let after_audit2 := after_audit1 * (1 - catch2) in
  error_rate (fst (simulate_metasprint n_studies team_size g)) ==
    Qmax after_audit2 0.01 /\
  0 < error_rate (fst (simulate_metasprint n_studies team_size g)).
Proof.
  cbn zeta.
  assert (E : error_rate (fst (simulate_metasprint n_studies team_size g)) =
              py_max (fst (uniform 0.15 0.25 (skip 11 g)) *
                      (1 - fst (uniform 0.6 0.9 (skip 4 g))) *
                      (1 - fst (uniform 0.7 0.95 (skip 5 g)))) 0.01)
    by reflexivity.
  rewrite E. split.
  - apply py_max_Qmax.
  - match goal with |- 0 < py_max ?x ?y =>
      destruct (py_max_bounds x y) as (Hfloor & _)
    end.
    lra.
Qed.

(** ** Structural parameters *)

(** C9: [n_studies] and [team_size] do not affect the generators: from the
    same state of the random source, any two choices of them give the same
    record (and the same next state). *)
Theorem structural_parameters_ignored {G : Type} `{RandomSource G}
    (n_studies team_size n_studies' team_size' : Z) (g : G) :
  simulate_traditional n_studies team_size g =
    simulate_traditional n_studies' team_size' g /\
  simulate_structured n_studies team_size g =
    simulate_structured n_studies' team_size' g /\
  simulate_metasprint n_studies team_size g =
    simulate_metasprint n_studies' team_size' g.
Proof.
  repeat split.
Qed.

(** ** The trial loop *)

Section TrialLoop.
Context {G : Type} `{RandomSource G}.
Variables PT PS PM : QualityMetrics -> Prop.
Hypothesis traditional_ok :
  forall g : G, PT (fst (simulate_traditional 40 6 g)).
Hypothesis structured_ok :
  forall g : G, PS (fst (simulate_structured 40 6 g)).
Hypothesis metasprint_ok :
  forall g : G, PM (fst (simulate_metasprint 40 12 g)).

(** The loop never raises: it extends each of the three lists by [n]
    records of the method's generator. *)
Lemma run_simulation_loop_spec (n : nat) :
  forall (lt ls lm : list QualityMetrics) (g : G),
  exists (lt' ls' lm' : list QualityMetrics) (g' : G),
    run_simulation_loop n
      [(TRADITIONAL, lt); (STRUCTURED, ls); (METASPRINT, lm)] g =
    Ok ([(TRADITIONAL, lt ++ lt'); (STRUCTURED, ls ++ ls');
         (METASPRINT, lm ++ lm')], g') /\
    (length lt' = n /\ length ls' = n /\ length lm' = n) /\
    Forall PT lt' /\ Forall PS ls' /\ Forall PM lm'.
Proof.
  induction n as [|n IH]; intros lt ls lm g.
  - exists [], [], [], g. cbn. rewrite !app_nil_r. auto.
  - cbn.
    match goal with
    | |- context [run_simulation_loop n
           [(_, _ ++ [?m1]); (_, _ ++ [?m2]); (_, _ ++ [?m3])] ?g3] =>
        destruct (IH (lt ++ [m1]) (ls ++ [m2]) (lm ++ [m3]) g3)
          as (lt' & ls' & lm' & g' & Hrun & (Ht & Hs & Hm) & Ft & Fs & Fm);
        exists (m1 :: lt'), (m2 :: ls'), (m3 :: lm'), g'
    end.
    rewrite Hrun, <- !app_assoc. cbn.
    repeat split; try (f_equal; assumption);
      constructor; first [assumption | apply traditional_ok
                         | apply structured_ok | apply metasprint_ok].
Qed.
End TrialLoop.

(** C8: the gated generator sets [grade_completed] and [deviations_logged]
    to true whatever the random source gives, and so does every gated
    record of a run, for any number of trials. *)
Theorem gated_flags_always_set {G : Type} `{RandomSource G} :
  (forall (n_studies team_size : Z) (g : G),
     flags_set (fst (simulate_metasprint n_studies team_size g))) /\
  (forall (n_iterations : Z) (g : G),
   exists (results : dict (list QualityMetrics)) (g' : G)
          (gated : list QualityMetrics),
     run_simulation n_iterations g = Ok (results, g') /\
     getitem results METASPRINT = Ok gated /\
     length gated = Z.to_nat n_iterations /\
     Forall flags_set gated).
Proof.
  split.
  - intros n_studies team_size g. split; reflexivity.
  - intros n_iterations g. unfold run_simulation.
    destruct (run_simulation_loop_spec (fun _ => True) (fun _ => True)
                flags_set (fun _ => I) (fun _ => I)
                (fun g0 => conj eq_refl eq_refl)
                (Z.to_nat n_iterations) [] [] [] g)
      as (lt' & ls' & lm' & g' & Hrun & (_ & _ & Hm) & _ & _ & Fm).
    exists [(TRADITIONAL, lt'); (STRUCTURED, ls'); (METASPRINT, lm')], g', lm'.
    auto.
Qed.

(** ** Gates *)

(** C5, as stated, fails: with the second and third gates failed (and the
    first and fourth passed) neither [protocol_adherence] nor
    [reproducibility] is reduced, each is its base uniform draw, and the
    record is the one obtained when every gate passes. *)
Lemma failed_middle_gates_change_nothing :
  (draw 1 script_gates_b_c_fail <? 0.92) = false /\
  (draw 2 script_gates_b_c_fail <? 0.90) = false /\
  protocol_adherence (fst (simulate_metasprint 40 12 script_gates_b_c_fail))
    == fst (uniform 0.85 0.98 (skip 7 script_gates_b_c_fail)) /\
  reproducibility (fst (simulate_metasprint 40 12 script_gates_b_c_fail))
    == fst (uniform 0.85 0.98 (skip 9 script_gates_b_c_fail)) /\
  fst (simulate_metasprint 40 12 script_gates_b_c_fail) =
    fst (simulate_metasprint 40 12 script_gates_pass).
Proof.
  repeat split; vm_compute; reflexivity.
Qed.

(** The draws of the second and third gates reach no field: two sources
    that agree on the other eleven draws of a gated trial give the same
    record. *)
Lemma middle_gates_do_not_interfere {G : Type} `{RandomSource G}
    (n_studies team_size : Z) (g g' : G) :
  (forall k : nat,
     (k < 13)%nat -> k <> 1%nat -> k <> 2%nat -> draw k g' = draw k g) ->
  fst (simulate_metasprint n_studies team_size g') =
    fst (simulate_metasprint n_studies team_size g).
Proof.
  intros Hagree.
  assert (E : forall k : nat,
            (k < 13)%nat -> k <> 1%nat -> k <> 2%nat ->
            fst (random (skip k g')) = fst (random (skip k g)))
    by exact Hagree.
  pose proof (E 0%nat ltac:(lia) ltac:(lia) ltac:(lia)) as E0.
  pose proof (E 3%nat ltac:(lia) ltac:(lia) ltac:(lia)) as E3.
  pose proof (E 4%nat ltac:(lia) ltac:(lia) ltac:(lia)) as E4.
  pose proof (E 5%nat ltac:(lia) ltac:(lia) ltac:(lia)) as E5.
  pose proof (E 6%nat ltac:(lia) ltac:(lia) ltac:(lia)) as E6.
  pose proof (E 7%nat ltac:(lia) ltac:(lia) ltac:(lia)) as E7.
  pose proof (E 8%nat ltac:(lia) ltac:(lia) ltac:(lia)) as E8.
  pose proof (E 9%nat ltac:(lia) ltac:(lia) ltac:(lia)) as E9.
  pose proof (E 10%nat ltac:(lia) ltac:(lia) ltac:(lia)) as E10.
  pose proof (E 11%nat ltac:(lia) ltac:(lia) ltac:(lia)) as E11.
  pose proof (E 12%nat ltac:(lia) ltac:(lia) ltac:(lia)) as E12.
  clear E Hagree. cbn [skip] in *.
  cbn.
  rewrite E0, E3, E4, E5, E6, E7, E8, E9, E10, E11, E12.
  reflexivity.
Qed.

(** C5, amended: the gated generator first draws four gate variates, in
    order; the first gate passes below 0.95 and the fourth below 0.88.  A failed first gate takes the fixed penalty 0.1 off the
    base uniform draw of [protocol_adherence], a failed fourth gate takes
    0.1 off the base uniform draw of [reproducibility]; a passed gate
    leaves the base draw as it is. *)
Theorem first_and_fourth_gate_penalties {G : Type} `{RandomSource G}
    (n_studies team_size : Z) (g : G) :
  protocol_adherence (fst (simulate_metasprint n_studies team_size g)) ==
    fst (uniform 0.85 0.98 (skip 7 g)) -
    (if draw 0 g <? 0.95 then 0 else 0.1) /\
  reproducibility (fst (simulate_metasprint n_studies team_size g)) ==
    fst (uniform 0.85 0.98 (skip 9 g)) -
    (if draw 3 g <? 0.88 then 0 else 0.1).
Proof.
  split.
  - unfold draw; cbn. split_gates; cbn; ring.
  - unfold draw; cbn. split_gates; cbn; ring.
Qed.

(** ** Non-positive iteration counts *)

(** C7, as stated, fails: with an iteration count of zero, or a negative
    one, [run_simulation] raises nothing and returns the three empty
    sequences. *)
Lemma nonpositive_count_returns_empty_results :
  run_simulation 0 script_mixed = Ok (empty_results, script_mixed) /\
  run_simulation (-5) script_mixed = Ok (empty_results, script_mixed) /\
  run_simulation 0 script_mixed <> Raise ValueError.
Proof.
  split; [reflexivity|]. split; [reflexivity|]. discriminate.
Qed.

(** C7, amended: given a non-positive iteration count, the trial runner
    signals nothing; it returns the three empty sequences and leaves the
    random source as it was. *)
Theorem run_simulation_nonpositive {G : Type} `{RandomSource G}
    (n_iterations : Z) (g : G) :
  (n_iterations <= 0)%Z ->
  run_simulation n_iterations g = Ok (empty_results, g).
Proof.
  intros Hn. unfold run_simulation.
  replace (Z.to_nat n_iterations) with O by lia.
  reflexivity.
Qed.

Lemma run_simulation_nonpositive_witness :
  (-3 <= 0)%Z /\
  run_simulation (-3) script_mixed = Ok (empty_results, script_mixed).
Proof.
  split; [lia|].
  apply (run_simulation_nonpositive (G := Scripted.state) (-3) script_mixed).
  lia.
Defined.

(** ** Aggregating an empty sequence *)

Lemma len_cons_nonzero {A : Type} (x : A) (xs : list A) :
  Qeq_bool (len (x :: xs)) 0 = false.
Proof.
  unfold len, Qeq_bool, inject_Z. cbn [Qnum Qden length].
  apply Z.eqb_neq. lia.
Qed.

Lemma analyze_results_body_empty :
  analyze_results_body [] = Raise ZeroDivisionError.
Proof.
  reflexivity.
Qed.

Lemma analyze_results_body_nonempty (m : QualityMetrics)
    (l : list QualityMetrics) :
  exists s : Summary, analyze_results_body (m :: l) = Ok s.
Proof.
  unfold analyze_results_body, py_div.
  rewrite len_cons_nonzero. cbn [bind ret Monad_pyresult].
  eexists. reflexivity.
Qed.

(** C2, as stated, fails: on an empty sequence the error raised is the
    [ZeroDivisionError] of the division by the length of the sequence, not
    an error kind of its own for invalid input. *)
Lemma empty_sequence_raises_ZeroDivisionError :
  analyze_results [(TRADITIONAL, [])] = Raise ZeroDivisionError /\
  analyze_results empty_results = Raise ZeroDivisionError /\
  analyze_results empty_results <> Raise ValueError.
Proof.
  split; [reflexivity|]. split; [reflexivity|]. discriminate.
Qed.

(** C2, amended: given an empty sequence for some method, the aggregator
    raises [ZeroDivisionError], from the division of the completion count by
    the length of the sequence; it returns no summary, so no NaN either. *)
Theorem analyze_results_empty_sequence
    (results : dict (list QualityMetrics)) (method : Method) :
  In (method, []) results ->
  analyze_results results = Raise ZeroDivisionError.
Proof.
  unfold analyze_results. generalize (@nil (Method * Summary)).
  induction results as [|[k l] results IH]; intros summary Hin.
  - destruct Hin.
  - cbn [analyze_results_loop].
    destruct l as [|m l].
    + rewrite analyze_results_body_empty. reflexivity.
    + destruct (analyze_results_body_nonempty m l) as [s ->].
      cbn [bind Monad_pyresult]. apply IH.
      destruct Hin as [Hhd | Htl]; [discriminate Hhd | exact Htl].
Qed.

Lemma analyze_results_empty_sequence_witness :
  In (STRUCTURED, []) [(TRADITIONAL, [QualityMetrics_default]);
                       (STRUCTURED, [])] /\
  analyze_results [(TRADITIONAL, [QualityMetrics_default]); (STRUCTURED, [])] =
    Raise ZeroDivisionError.
Proof.
  assert (Hin : In (STRUCTURED, @nil QualityMetrics)
                  [(TRADITIONAL, [QualityMetrics_default]); (STRUCTURED, [])])
    by (right; left; reflexivity).
  split; [exact Hin|].
  apply (analyze_results_empty_sequence _ STRUCTURED Hin).
Defined.

(** ** Comparing against a zero baseline *)

Lemma np_div_zero_not_finite (x y : float64) :
  is_zero y = true -> is_finite (np_mul (np_div x y) (Fin 100)) = false.
Proof.
  destruct y as [b| |]; cbn [is_zero]; intros Hz; try discriminate.
  destruct x as [a|s|]; cbn [np_div]; try reflexivity.
  rewrite Hz. destruct (Qeq_bool a 0); reflexivity.
Qed.

(** C1, as stated, fails: with a baseline whose mean error rate, mean time
    and mean reproducibility are zero, the comparison raises nothing and
    its deltas are infinities and NaN. *)
Lemma zero_baseline_gives_inf_and_nan :
  exists kf : KeyFindings,
    (summary <- analyze_results zero_baseline_results ;;
     print_comparison_table summary) = Ok kf /\
    error_reduction kf = Inf true /\
    time_reduction kf = Inf true /\
    repro_improvement kf = NaN.
Proof.
  eexists. split; [reflexivity|]. split; [reflexivity|].
  split; reflexivity.
Qed.

(** C1, amended: on summaries of numpy scalars, as the aggregator makes
    them, the comparison never raises for a zero baseline mean: it returns
    its four deltas, and a delta whose baseline mean is exactly zero is an
    infinity or NaN. *)
Theorem zero_baseline_not_signalled (summary : dict Summary)
    (trad structured sprint : Summary) :
  getitem summary TRADITIONAL = Ok trad ->
  getitem summary STRUCTURED = Ok structured ->
  getitem summary METASPRINT = Ok sprint ->
  exists kf : KeyFindings,
    print_comparison_table summary = Ok kf /\
    (is_zero (quality_mean trad) = true ->
     is_finite (quality_improvement kf) = false) /\
    (is_zero (error_rate_mean trad) = true ->
     is_finite (error_reduction kf) = false) /\
    (is_zero (time_mean trad) = true ->
     is_finite (time_reduction kf) = false) /\
    (is_zero (reproducibility_mean trad) = true ->
     is_finite (repro_improvement kf) = false).
Proof.
  intros Ht Hs Hm. unfold print_comparison_table.
  rewrite Ht, Hs, Hm. cbn [bind ret Monad_pyresult].
  eexists. split; [reflexivity|].
  cbn [quality_improvement error_reduction time_reduction repro_improvement].
  repeat split; apply np_div_zero_not_finite.
Qed.

Lemma zero_baseline_not_signalled_witness :
  getitem zero_baseline_summary TRADITIONAL = Ok summary_of_default /\
  getitem zero_baseline_summary STRUCTURED = Ok summary_of_default /\
  getitem zero_baseline_summary METASPRINT = Ok summary_of_gated /\
  exists kf : KeyFindings,
    print_comparison_table zero_baseline_summary = Ok kf /\
    (is_zero (quality_mean summary_of_default) = true ->
     is_finite (quality_improvement kf) = false) /\
    (is_zero (error_rate_mean summary_of_default) = true ->
     is_finite (error_reduction kf) = false) /\
    (is_zero (time_mean summary_of_default) = true ->
     is_finite (time_reduction kf) = false) /\
    (is_zero (reproducibility_mean summary_of_default) = true ->
     is_finite (repro_improvement kf) = false).
Proof.
  split; [reflexivity|]. split; [reflexivity|]. split; [reflexivity|].
  apply (zero_baseline_not_signalled zero_baseline_summary
           summary_of_default summary_of_default summary_of_gated);
    reflexivity.
Defined.

(** * Further properties *)

(** ** Ranges of the generated records *)

(** Bound the variate of every [_randbelow(n)] call in the goal. *)
Ltac bound_randbelow :=
  repeat match goal with
  | |- context [fst (randbelow ?n ?g)] =>
      let k := fresh "k" in
      let Hk := fresh "Hk" in
      assert (Hk : (0 <= fst (randbelow n g) < n)%Z)
        by (apply randbelow_range; lia);
      revert Hk; generalize (fst (randbelow n g)); intros k Hk
  end.

Lemma simulate_metasprint_time_days_core {G : Type} `{RandomSource G}
    (n_studies team_size : Z) (g : G) :
  time_days (fst (simulate_metasprint n_studies team_size g)) =
    (if draw 12 g <? 0.15 then 45%Z else 40%Z) /\
  (time_days (fst (simulate_metasprint n_studies team_size g)) = 40 \/
   time_days (fst (simulate_metasprint n_studies team_size g)) = 45)%Z.
Proof.
  assert (E : time_days (fst (simulate_metasprint n_studies team_size g)) =
              (if draw 12 g <? 0.15 then 45%Z else 40%Z)) by reflexivity.
  rewrite E. split; [reflexivity|].
  destruct (draw 12 g <? 0.15); [right | left]; reflexivity.
Qed.

(** X1: the gated duration is the nominal 40 days, or 45 when the last draw of
    the trial falls below 0.15, whatever the random source gives. *)
Theorem simulate_metasprint_time_days {G : Type} `{RandomSource G}
    (n_studies team_size : Z) (g : G) :
  time_days (fst (simulate_metasprint n_studies team_size g)) =
    (if draw 12 g <? 0.15 then 45%Z else 40%Z) /\
  (time_days (fst (simulate_metasprint n_studies team_size g)) = 40 \/
   time_days (fst (simulate_metasprint n_studies team_size g)) = 45)%Z.
Proof.
  assert (E : time_days (fst (simulate_metasprint n_studies team_size g)) =
              (if draw 12 g <? 0.15 then 45%Z else 40%Z)) by reflexivity.
  rewrite E. split; [reflexivity|].
  destruct (draw 12 g <? 0.15); [right | left]; reflexivity.
Qed.

Section GeneratorProfiles.
Context {G : Type} `{RandomSourceOk G}.

Lemma simulate_traditional_range (n_studies team_size : Z) (g : G) :
  traditional_range (fst (simulate_traditional n_studies team_size g)).
Proof.
  unfold traditional_range, between. cbn -[Z.add Z.sub].
  bound_randbelow. name_draws.
  repeat split; first [lra | lia].
Qed.

Lemma simulate_structured_range (n_studies team_size : Z) (g : G) :
  structured_range (fst (simulate_structured n_studies team_size g)).
Proof.
  unfold structured_range, between. cbn -[Z.add Z.sub].
  bound_randbelow. name_draws.
  repeat split; first [lra | lia].
Qed.

Lemma simulate_metasprint_range (n_studies team_size : Z) (g : G) :
  metasprint_range (fst (simulate_metasprint n_studies team_size g)).
Proof.
  pose proof (simulate_metasprint_error_rate n_studies team_size g)
    as [Helo Hehi].
  pose proof (simulate_metasprint_time_days_core n_studies team_size g)
    as [_ Htime].
  unfold metasprint_range, between.
  split; [|split; [|split; [|split; [|split; [|split]]]]];
    [ | | | | lra | exact Htime | split; reflexivity ];
    clear Helo Hehi Htime.
  all: cbn; split_gates; cbn; name_draws.
  all: try match goal with |- _ <= py_min ?a ?b /\ _ =>
      assert (Ha : 0.9 <= a) by lra;
      destruct (py_min_bounds a b 0.9 Ha) as (? & ? & ?); [lra|]
    end.
  all: lra.
Qed.
End GeneratorProfiles.

Lemma within_of_between (lo hi x : Q) : between lo hi x -> within lo hi x.
Proof.
  unfold between, within, tolerance. intros [Hlo Hhi]. split; lra.
Qed.

Lemma traditional_profile_of_range (m : QualityMetrics) :
  traditional_range m -> traditional_profile m.
Proof.
  intros (Hp & Hd & Hr & Ha & He & Ht). unfold traditional_profile.
  repeat match goal with |- _ /\ _ => split end;
    first [now apply within_of_between | lia].
Qed.

Lemma structured_profile_of_range (m : QualityMetrics) :
  structured_range m -> structured_profile m.
Proof.
  intros (Hp & Hd & Hr & Ha & He & Ht). unfold structured_profile.
  repeat match goal with |- _ /\ _ => split end;
    first [now apply within_of_between | lia].
Qed.

Lemma metasprint_profile_of_range (m : QualityMetrics) :
  metasprint_range m -> metasprint_profile m.
Proof.
  intros (Hp & Hd & Hr & Ha & He & Ht & Hf). unfold metasprint_profile.
  repeat match goal with |- _ /\ _ => split end;
    first [now apply within_of_between | exact Ht | exact Hf].
Qed.

(** The bounds of the ranges are the exact ends of the draws, and binary64
    rounding crosses two of them: with no drift and the largest base draw
    the baseline adherence is 0.71000000000000008, above 0.71. *)
Example baseline_adherence_exceeds_range_binary64 :
  Binary64.exceeds
    (Binary64.baseline_protocol_adherence Binary64.smallest_draw
       Binary64.largest_draw)
    Binary64.seventy_one_hundredths = true.
Proof.
  vm_compute. reflexivity.
Qed.

(** X2: each generator keeps every field within the range its draws span,
    up to the rounding tolerance: the baseline duration is between 90 and
    365 days and the structured one between 60 and 180; the gated adherence
    and reproducibility stay above 0.75, the gated accuracy in
    [[0.9, 0.99]], the gated duration is 40 or 45 and both flags are set. *)
Theorem generated_records_within_range {G : Type} `{RandomSourceOk G}
    (n_studies team_size : Z) (g : G) :
  traditional_profile (fst (simulate_traditional n_studies team_size g)) /\
  structured_profile (fst (simulate_structured n_studies team_size g)) /\
  metasprint_profile (fst (simulate_metasprint n_studies team_size g)).
Proof.
  split; [|split].
  - apply traditional_profile_of_range, simulate_traditional_range.
  - apply structured_profile_of_range, simulate_structured_range.
  - apply metasprint_profile_of_range, simulate_metasprint_range.
Qed.

Lemma generated_records_within_range_witness :
  RandomSourceOk Scripted.state /\
  traditional_profile (fst (simulate_traditional 40 6 script_mixed)) /\
  structured_profile (fst (simulate_structured 40 6 script_mixed)) /\
  metasprint_profile (fst (simulate_metasprint 40 6 script_mixed)).
Proof.
  split; [exact Scripted_ok|].
  exact (generated_records_within_range (G := Scripted.state) 40 6
           script_mixed).
Defined.

(** ** The composite score of each method *)

(** Split the score into its value before the cap and the cap. *)
Ltac bound_overall_quality lo :=
  unfold overall_quality, weights.protocol_adherence, weights.data_accuracy,
    weights.reproducibility, weights.audit_readiness, weights.error_rate;
  match goal with |- context [py_min ?s 100] =>
    let Hs := fresh "Hs" in
    assert (Hs : lo <= s);
    [ | destruct (py_min_bounds s 100 lo Hs) as (? & ? & ?); [lra|] ]
  end.

Lemma traditional_quality (m : QualityMetrics) :
  traditional_range m ->
  47.5 <= overall_quality m /\ overall_quality m <= 84.2.
Proof.
  unfold traditional_range, between.
  intros (Hp & Hd & Hr & Ha & He & _).
  bound_overall_quality 47.5.
  - destruct (grade_completed m), (deviations_logged m); lra.
  - split; [assumption|].
    match goal with H : py_min ?s 100 <= ?s |- _ =>
      apply Qle_trans with s; [exact H|]
    end.
    destruct (grade_completed m), (deviations_logged m); lra.
Qed.

Lemma structured_quality (m : QualityMetrics) :
  structured_range m ->
  65.25 <= overall_quality m /\ overall_quality m <= 94.5.
Proof.
  unfold structured_range, between.
  intros (Hp & Hd & Hr & Ha & He & _).
  bound_overall_quality 65.25.
  - destruct (grade_completed m), (deviations_logged m); lra.
  - split; [assumption|].
    match goal with H : py_min ?s 100 <= ?s |- _ =>
      apply Qle_trans with s; [exact H|]
    end.
    destruct (grade_completed m), (deviations_logged m); lra.
Qed.

Lemma metasprint_quality (m : QualityMetrics) :
  metasprint_range m ->
  95.4 <= overall_quality m /\ overall_quality m <= 100.
Proof.
  unfold metasprint_range, between, flags_set.
  intros (Hp & Hd & Hr & Ha & He & _ & Hg & Hl).
  bound_overall_quality 95.4.
  - rewrite Hg, Hl. lra.
  - split; assumption.
Qed.

(** X3: whatever the draws, a gated record scores at least 95.4, a structured
    record at most 94.5 and a baseline record at most 84.2: every gated
    record beats every record of the other two methods. *)
Theorem gated_quality_dominates {G : Type} `{RandomSourceOk G}
    (n_studies team_size : Z) (g gs gt : G) :
  let gated :=
    overall_quality (fst (simulate_metasprint n_studies team_size g)) in
  let structured :=
    overall_quality (fst (simulate_structured n_studies team_size gs)) in
  let baseline :=
    overall_quality (fst (simulate_traditional n_studies team_size gt)) in
  95.4 <= gated /\ structured <= 94.5 /\ baseline <= 84.2 /\
  structured < gated /\ baseline < gated.
Proof.
  intros gated structured baseline.
  pose proof (metasprint_quality _
                (simulate_metasprint_range n_studies team_size g)) as [Hg _].
  pose proof (structured_quality _
                (simulate_structured_range n_studies team_size gs)) as [_ Hs].
  pose proof (traditional_quality _
                (simulate_traditional_range n_studies team_size gt))
    as [_ Hb].
  fold gated in Hg. fold structured in Hs. fold baseline in Hb.
  repeat split; lra.
Qed.

Lemma gated_quality_dominates_witness :
  RandomSourceOk Scripted.state /\
  95.4 <=
    overall_quality (fst (simulate_metasprint 40 12 script_worst_errors)) /\
  overall_quality (fst (simulate_structured 40 12 script_mixed)) <= 94.5 /\
  overall_quality (fst (simulate_traditional 40 12 script_mixed)) <= 84.2 /\
  overall_quality (fst (simulate_structured 40 12 script_mixed)) <
    overall_quality (fst (simulate_metasprint 40 12 script_worst_errors)) /\
  overall_quality (fst (simulate_traditional 40 12 script_mixed)) <
    overall_quality (fst (simulate_metasprint 40 12 script_worst_errors)).
Proof.
  split; [exact Scripted_ok|].
  exact (gated_quality_dominates (G := Scripted.state) 40 12
           script_worst_errors script_mixed script_mixed).
Defined.

(** ** The sequences of a run *)

Lemma run_simulation_lengths_core {G : Type} `{RandomSource G}
    (n_iterations : Z) (g : G) :
  exists (lt ls lm : list QualityMetrics) (g' : G),
    run_simulation n_iterations g =
      Ok ([(TRADITIONAL, lt); (STRUCTURED, ls); (METASPRINT, lm)], g') /\
    length lt = Z.to_nat n_iterations /\
    length ls = Z.to_nat n_iterations /\
    length lm = Z.to_nat n_iterations.
Proof.
  unfold run_simulation.
  destruct (run_simulation_loop_spec (fun _ => True) (fun _ => True)
              (fun _ => True) (fun _ => I) (fun _ => I) (fun _ => I)
              (Z.to_nat n_iterations) [] [] [] g)
    as (lt & ls & lm & g' & Hrun & (Ht & Hs & Hm) & _).
  exists lt, ls, lm, g'. auto.
Qed.

(** X4: a run never raises: it returns the dict of the three methods, in the
    order traditional, structured, META-SPRINT, each with exactly
    [n_iterations] records (none when the count is not positive). *)
Theorem run_simulation_lengths {G : Type} `{RandomSource G}
    (n_iterations : Z) (g : G) :
  exists (lt ls lm : list QualityMetrics) (g' : G),
    run_simulation n_iterations g =
      Ok ([(TRADITIONAL, lt); (STRUCTURED, ls); (METASPRINT, lm)], g') /\
    length lt = Z.to_nat n_iterations /\
    length ls = Z.to_nat n_iterations /\
    length lm = Z.to_nat n_iterations.
Proof.
  unfold run_simulation.
  destruct (run_simulation_loop_spec (fun _ => True) (fun _ => True)
              (fun _ => True) (fun _ => I) (fun _ => I) (fun _ => I)
              (Z.to_nat n_iterations) [] [] [] g)
    as (lt & ls & lm & g' & Hrun & (Ht & Hs & Hm) & _).
  exists lt, ls, lm, g'. auto.
Qed.

Lemma run_simulation_records_in_range_core {G : Type} `{RandomSourceOk G}
    (n_iterations : Z) (g : G) :
  exists (lt ls lm : list QualityMetrics) (g' : G),
    run_simulation n_iterations g =
      Ok ([(TRADITIONAL, lt); (STRUCTURED, ls); (METASPRINT, lm)], g') /\
    Forall traditional_range lt /\
    Forall structured_range ls /\
    Forall metasprint_range lm.
Proof.
  unfold run_simulation.
  destruct (run_simulation_loop_spec traditional_range structured_range
              metasprint_range
              (simulate_traditional_range 40 6)
              (simulate_structured_range 40 6)
              (simulate_metasprint_range 40 12)
              (Z.to_nat n_iterations) [] [] [] g)
    as (lt & ls & lm & g' & Hrun & _ & Ft & Fs & Fm).
  exists lt, ls, lm, g'. auto.
Qed.



(** ** Sums, lengths and means *)

Lemma len_cons {A : Type} (x : A) (xs : list A) :
  len (x :: xs) == 1 + len xs.
Proof.
  unfold len. cbn [length]. rewrite Nat2Z.inj_succ.
  unfold Z.succ. rewrite inject_Z_plus. ring.
Qed.

Lemma len_nil {A : Type} : len (@nil A) == 0.
Proof.
  reflexivity.
Qed.

Lemma len_nonneg {A : Type} (xs : list A) : 0 <= len xs.
Proof.
  unfold len. change 0 with (inject_Z 0). rewrite <- Zle_Qle. lia.
Qed.

Lemma len_pos {A : Type} (xs : list A) : xs <> [] -> 0 < len xs.
Proof.
  destruct xs as [|x xs]; [congruence|]. intros _.
  rewrite len_cons. pose proof (len_nonneg xs). lra.
Qed.

Lemma len_le {A : Type} (xs ys : list A) :
  (length xs <= length ys)%nat -> len xs <= len ys.
Proof.
  intros Hle. unfold len. rewrite <- Zle_Qle. lia.
Qed.

Lemma Qsum_lower (lo : Q) (xs : list Q) :
  Forall (fun x => lo <= x) xs -> len xs * lo <= Qsum xs.
Proof.
  induction 1 as [|x xs Hx _ IH].
  - rewrite len_nil. cbn [Qsum fold_right]. lra.
  - rewrite len_cons. cbn [Qsum fold_right]. fold (Qsum xs). lra.
Qed.

Lemma Qsum_upper (hi : Q) (xs : list Q) :
  Forall (fun x => x <= hi) xs -> Qsum xs <= len xs * hi.
Proof.
  induction 1 as [|x xs Hx _ IH].
  - rewrite len_nil. cbn [Qsum fold_right]. lra.
  - rewrite len_cons. cbn [Qsum fold_right]. fold (Qsum xs). lra.
Qed.

Lemma np_mean_nonempty (xs : list Q) :
  xs <> [] -> np_mean xs = Fin (Qsum xs / len xs).
Proof.
  destruct xs; [congruence | reflexivity].
Qed.

(** The mean of a non-empty list lies between any two bounds of its
    elements. *)
Lemma np_mean_between (lo hi : Q) (xs : list Q) :
  xs <> [] -> Forall (between lo hi) xs ->
  float64_between lo hi (np_mean xs).
Proof.
  intros Hne Hall. rewrite (np_mean_nonempty xs Hne).
  pose proof (len_pos xs Hne) as Hlen.
  assert (Hlo : len xs * lo <= Qsum xs).
  { apply Qsum_lower. revert Hall. apply Forall_impl. intros x [? _]; auto. }
  assert (Hhi : Qsum xs <= len xs * hi).
  { apply Qsum_upper. revert Hall. apply Forall_impl. intros x [_ ?]; auto. }
  cbn. split.
  - apply Qle_shift_div_l; [assumption | lra].
  - apply Qle_shift_div_r; [assumption | lra].
Qed.

Lemma map_nonempty {A B : Type} (f : A -> B) (l : list A) :
  l <> [] -> map f l <> [].
Proof.
  destruct l; [congruence | discriminate].
Qed.

(** The number under the root of [np.std] is finite and not negative. *)
Lemma np_std_radicand (xs : list Q) :
  xs <> [] -> exists v : Q, radicand (np_std xs) = Fin v /\ 0 <= v.
Proof.
  intros Hne. destruct xs as [|x xs]; [congruence|].
  eexists. split; [reflexivity|].
  apply Qle_shift_div_l; [apply len_pos; discriminate|].
  rewrite Qmult_0_l.
  match goal with |- 0 <= Qsum ?sq =>
    assert (Hsq : len sq * 0 <= Qsum sq)
  end.
  { apply Qsum_lower. apply Forall_map. apply Forall_forall.
    intros y _.
    match goal with |- 0 <= ?z * ?z => generalize z; intros d; nra end. }
  lra.
Qed.

(** ** The summary of one method *)

(** What each field of a summary is computed from. *)
Lemma analyze_results_body_fields (l : list QualityMetrics) (s : Summary) :
  analyze_results_body l = Ok s ->
  quality_mean s = np_mean (map overall_quality l) /\
  quality_std s = np_std (map overall_quality l) /\
  quality_95ci s = (np_percentile (map overall_quality l) 2.5,
                    np_percentile (map overall_quality l) 97.5) /\
  error_rate_mean s = np_mean (map (fun m => error_rate m * 100) l) /\
  error_rate_std s = np_std (map (fun m => error_rate m * 100) l) /\
  time_mean s = np_mean (map (fun m => inject_Z (time_days m)) l) /\
  time_std s = np_std (map (fun m => inject_Z (time_days m)) l) /\
  reproducibility_mean s =
    np_mean (map (fun m => reproducibility m * 100) l) /\
  grade_completion s = len (filter grade_completed l) / len l * 100.
Proof.
  unfold analyze_results_body, py_div.
  destruct (Qeq_bool (len l) 0); cbn [bind ret Monad_pyresult];
    [discriminate|].
  intros [= <-]. cbn. repeat split.
Qed.

Lemma analyze_results_body_ok (l : list QualityMetrics) :
  l <> [] -> exists s : Summary, analyze_results_body l = Ok s.
Proof.
  destruct l as [|m l]; [congruence|]. intros _.
  apply analyze_results_body_nonempty.
Qed.

(** *** One record *)

Lemma np_mean_singleton (x : Q) : float64_eq (np_mean [x]) (Fin x).
Proof.
  unfold np_mean, float64_eq, Qsum, len. cbn. field.
Qed.

Lemma np_std_singleton (x : Q) :
  float64_eq (radicand (np_std [x])) (Fin 0).
Proof.
  unfold np_std, float64_eq, Qsum, len. cbn. field.
Qed.

Lemma np_percentile_singleton (x q : Q) :
  float64_eq (np_percentile [x] q) (Fin x).
Proof.
  unfold np_percentile. cbn [sorted fold_right insert_sorted length].
  change (Z.of_nat 1 - 1)%Z with 0%Z.
  assert (Hpos : inject_Z 0 * (q / 100) == 0) by ring.
  assert (Hlo : Qfloor (inject_Z 0 * (q / 100)) = 0%Z).
  { rewrite Hpos. reflexivity. }
  rewrite Hlo. cbn. ring.
Qed.

(** X9: with a single record the summary collapses onto it: each mean is the
    record's own value, each standard deviation is zero, the 95% interval
    is a single point and the completion percentage is 100 or 0. *)
Theorem analyze_single_record (m : QualityMetrics) :
  exists s : Summary,
    analyze_results_body [m] = Ok s /\
    float64_eq (quality_mean s) (Fin (overall_quality m)) /\
    float64_eq (fst (quality_95ci s)) (Fin (overall_quality m)) /\
    float64_eq (snd (quality_95ci s)) (Fin (overall_quality m)) /\
    float64_eq (error_rate_mean s) (Fin (error_rate m * 100)) /\
    float64_eq (time_mean s) (Fin (inject_Z (time_days m))) /\
    float64_eq (reproducibility_mean s) (Fin (reproducibility m * 100)) /\
    float64_eq (radicand (quality_std s)) (Fin 0) /\
    float64_eq (radicand (error_rate_std s)) (Fin 0) /\
    float64_eq (radicand (time_std s)) (Fin 0) /\
    grade_completion s == (if grade_completed m then 100 else 0).
Proof.
  destruct (analyze_results_body_nonempty m []) as [s Hs].
  exists s. split; [exact Hs|].
  destruct (analyze_results_body_fields _ _ Hs)
    as (-> & -> & -> & -> & -> & -> & -> & -> & ->).
  cbn [map fst snd filter].
  repeat split;
    try apply np_mean_singleton; try apply np_std_singleton;
    try apply np_percentile_singleton.
  destruct (grade_completed m); reflexivity.
Qed.

(** *** Records within their domains *)

Lemma filter_all {A : Type} (f : A -> bool) (l : list A) :
  Forall (fun x => f x = true) l -> filter f l = l.
Proof.
  induction 1 as [|x l Hx _ IH]; cbn; [reflexivity|].
  rewrite Hx, IH. reflexivity.
Qed.

(** X10: for a non-empty sequence of records within their domains the summary
    exists and stays in the percent scale: mean quality, mean error rate,
    mean reproducibility and the completion percentage all lie in
    [[0, 100]], and each standard deviation is the root of a finite number
    that is not negative. *)
Theorem analyze_records_in_domain (l : list QualityMetrics) :
  l <> [] -> Forall in_domain l ->
  exists s : Summary,
    analyze_results_body l = Ok s /\
    float64_between 0 100 (quality_mean s) /\
    float64_between 0 100 (error_rate_mean s) /\
    float64_between 0 100 (reproducibility_mean s) /\
    (0 <= grade_completion s /\ grade_completion s <= 100) /\
    (exists v, radicand (quality_std s) = Fin v /\ 0 <= v) /\
    (exists v, radicand (error_rate_std s) = Fin v /\ 0 <= v) /\
    (exists v, radicand (time_std s) = Fin v /\ 0 <= v).
Proof.
  intros Hne Hall.
  destruct (analyze_results_body_ok l Hne) as [s Hs].
  exists s. split; [exact Hs|].
  destruct (analyze_results_body_fields _ _ Hs)
    as (-> & -> & _ & -> & -> & _ & -> & -> & ->).
  pose proof (len_pos l Hne) as Hlen.
  repeat match goal with |- _ /\ _ => split end.
  - apply np_mean_between; [now apply map_nonempty|].
    apply Forall_map. revert Hall. apply Forall_impl.
    unfold in_domain, between. tauto.
  - apply np_mean_between; [now apply map_nonempty|].
    apply Forall_map. revert Hall. apply Forall_impl.
    unfold in_domain, in_unit, between. intros m H. lra.
  - apply np_mean_between; [now apply map_nonempty|].
    apply Forall_map. revert Hall. apply Forall_impl.
    unfold in_domain, in_unit, between. intros m H. lra.
  - assert (0 <= len (filter grade_completed l) / len l).
    { apply Qle_shift_div_l; [assumption|].
      pose proof (len_nonneg (filter grade_completed l)). lra. }
    lra.
  - assert (len (filter grade_completed l) / len l <= 1).
    { apply Qle_shift_div_r; [assumption|].
      pose proof (len_le _ _ (filter_length_le grade_completed l)). lra. }
    lra.
  - apply np_std_radicand. now apply map_nonempty.
  - apply np_std_radicand. now apply map_nonempty.
  - apply np_std_radicand. now apply map_nonempty.
Qed.

Lemma analyze_records_in_domain_witness :
  [QualityMetrics_default] <> [] /\
  Forall in_domain [QualityMetrics_default] /\
  exists s : Summary,
    analyze_results_body [QualityMetrics_default] = Ok s /\
    float64_between 0 100 (quality_mean s) /\
    float64_between 0 100 (error_rate_mean s) /\
    float64_between 0 100 (reproducibility_mean s) /\
    (0 <= grade_completion s /\ grade_completion s <= 100) /\
    (exists v, radicand (quality_std s) = Fin v /\ 0 <= v) /\
    (exists v, radicand (error_rate_std s) = Fin v /\ 0 <= v) /\
    (exists v, radicand (time_std s) = Fin v /\ 0 <= v).
Proof.
  assert (Hne : [QualityMetrics_default] <> []) by discriminate.
  assert (Hall : Forall in_domain [QualityMetrics_default]).
  { constructor; [|constructor].
    unfold in_domain, in_unit. cbn.
    repeat split; discriminate. }
  split; [exact Hne|]. split; [exact Hall|].
  exact (analyze_records_in_domain [QualityMetrics_default] Hne Hall).
Defined.

(** X11: when every record of a non-empty sequence has its GRADE flag set, as
    the gated records have, the completion percentage is exactly 100. *)
Theorem grade_completion_all_set (l : list QualityMetrics) :
  l <> [] -> Forall (fun m => grade_completed m = true) l ->
  exists s : Summary,
    analyze_results_body l = Ok s /\ grade_completion s == 100.
Proof.
  intros Hne Hall.
  destruct (analyze_results_body_ok l Hne) as [s Hs].
  exists s. split; [exact Hs|].
  destruct (analyze_results_body_fields _ _ Hs)
    as (_ & _ & _ & _ & _ & _ & _ & _ & ->).
  rewrite (filter_all _ _ Hall).
  pose proof (len_pos l Hne) as Hlen.
  field. lra.
Qed.

Lemma grade_completion_all_set_witness :
  [mkQualityMetrics 0.9 0.9 0 0.9 0.01 40 true true] <> [] /\
  Forall (fun m => grade_completed m = true)
    [mkQualityMetrics 0.9 0.9 0 0.9 0.01 40 true true] /\
  exists s : Summary,
    analyze_results_body [mkQualityMetrics 0.9 0.9 0 0.9 0.01 40 true true] =
      Ok s /\
    grade_completion s == 100.
Proof.
  assert (Hne : [mkQualityMetrics 0.9 0.9 0 0.9 0.01 40 true true] <> [])
    by discriminate.
  assert (Hall : Forall (fun m => grade_completed m = true)
                   [mkQualityMetrics 0.9 0.9 0 0.9 0.01 40 true true])
    by (constructor; [reflexivity | constructor]).
  split; [exact Hne|]. split; [exact Hall|].
  exact (grade_completion_all_set _ Hne Hall).
Defined.

(** ** Dicts *)

Lemma Method_eqb_eq (a b : Method) : Method_eqb a b = true <-> a = b.
Proof.
  destruct a, b; cbn; split; intros E; first [reflexivity | discriminate].
Qed.

Lemma Method_eqb_refl (a : Method) : Method_eqb a a = true.
Proof.
  now apply Method_eqb_eq.
Qed.

Lemma Method_eqb_neq (a b : Method) : a <> b -> Method_eqb a b = false.
Proof.
  intros Hne. destruct (Method_eqb a b) eqn:E; [|reflexivity].
  apply Method_eqb_eq in E. contradiction.
Qed.

(** A lookup fails with [KeyError] only. *)
Lemma getitem_raises_KeyError {V : Type} (d : dict V) (k : Method)
    (e : exception) :
  getitem d k = Raise e -> e = KeyError.
Proof.
  induction d as [|[k' v] d IH]; cbn.
  - intros [= <-]. reflexivity.
  - destruct (Method_eqb k k'); [discriminate | exact IH].
Qed.

Lemma setitem_fresh {V : Type} (d : dict V) (k : Method) (v : V) :
  ~ In k (keys d) -> setitem d k v = d ++ [(k, v)].
Proof.
  induction d as [|[k' v'] d IH]; cbn; intros Hfresh; [reflexivity|].
  rewrite Method_eqb_neq by (intros ->; apply Hfresh; now left).
  rewrite IH by (intros Hin; apply Hfresh; now right).
  reflexivity.
Qed.

Lemma getitem_In {V : Type} (d : dict V) (k : Method) (v : V) :
  NoDup (keys d) -> In (k, v) d -> getitem d k = Ok v.
Proof.
  induction d as [|[k' v'] d IH]; cbn; intros Hnd Hin; [destruct Hin|].
  inversion Hnd as [|? ? Hfresh Hnd']; subst.
  destruct Hin as [[= -> ->] | Hin].
  - rewrite Method_eqb_refl. reflexivity.
  - rewrite Method_eqb_neq; [now apply IH|].
    intros ->. apply Hfresh. change k' with (fst (k', v)).
    now apply in_map.
Qed.

(** ** The summaries of all methods *)

Lemma summarised_keys (items : dict (list QualityMetrics))
    (entries : dict Summary) :
  Forall2 summarised items entries -> keys entries = keys items.
Proof.
  induction 1 as [|item entry items entries [Hk _] _ IH];
    [reflexivity|].
  unfold keys in *. cbn [map]. now rewrite Hk, IH.
Qed.

Lemma summarised_In (items : dict (list QualityMetrics))
    (entries : dict Summary) (k : Method) (l : list QualityMetrics) :
  Forall2 summarised items entries -> In (k, l) items ->
  exists s : Summary, analyze_results_body l = Ok s /\ In (k, s) entries.
Proof.
  induction 1 as [|item [k' s] items entries [Hk Hs] _ IH]; cbn;
    intros Hin; [destruct Hin|].
  destruct Hin as [-> | Hin].
  - exists s. cbn in Hk, Hs. subst k'. split; [exact Hs | now left].
  - destruct (IH Hin) as (s' & Hs' & Hin'). exists s'. auto.
Qed.

Lemma analyze_results_loop_spec (items : dict (list QualityMetrics)) :
  forall summary : dict Summary,
  NoDup (keys summary ++ keys items) ->
  Forall (fun item => snd item <> []) items ->
  exists entries : dict Summary,
    Forall2 summarised items entries /\
    analyze_results_loop items summary = Ok (summary ++ entries).
Proof.
  induction items as [|[k l] items IH]; intros summary Hnd Hne.
  - exists []. split; [constructor|]. cbn. now rewrite app_nil_r.
  - inversion Hne as [|? ? Hl Hne']; subst. cbn in Hl.
    destruct (analyze_results_body_ok l Hl) as [s Hs].
    cbn [analyze_results_loop]. rewrite Hs. cbn [bind Monad_pyresult].
    assert (Hfresh : ~ In k (keys summary)).
    { intros Hin. apply NoDup_remove_2 in Hnd. apply Hnd.
      apply in_or_app. now left. }
    rewrite (setitem_fresh summary k s Hfresh).
    destruct (IH (summary ++ [(k, s)])) as (entries & Hall & Hrun).
    + unfold keys in *. rewrite map_app, <- app_assoc. exact Hnd.
    + exact Hne'.
    + exists ((k, s) :: entries). split.
      * constructor; [split; [reflexivity | exact Hs] | exact Hall].
      * rewrite Hrun, <- app_assoc. reflexivity.
Qed.

Lemma analyze_results_nonempty_core (results : dict (list QualityMetrics)) :
  NoDup (keys results) ->
  Forall (fun item => snd item <> []) results ->
  exists summary : dict Summary,
    analyze_results results = Ok summary /\
    keys summary = keys results /\
    forall (k : Method) (l : list QualityMetrics),
      In (k, l) results ->
      exists s : Summary,
        analyze_results_body l = Ok s /\ getitem summary k = Ok s.
Proof.
  intros Hnd Hne. unfold analyze_results.
  destruct (analyze_results_loop_spec results [] Hnd Hne)
    as (entries & Hall & Hrun).
  exists entries. split; [exact Hrun|].
  pose proof (summarised_keys _ _ Hall) as Hkeys.
  split; [exact Hkeys|].
  intros k l Hin.
  destruct (summarised_In _ _ k l Hall Hin) as (s & Hs & Hin').
  exists s. split; [exact Hs|].
  apply getitem_In; [|exact Hin'].
  unfold keys in *. rewrite Hkeys. exact Hnd.
Qed.

(** X13: given a dict of non-empty sequences, [analyze_results] returns a dict
    with the same keys in the same order, and looking a method up in it
    gives the summary of that method's sequence. *)
Theorem analyze_results_nonempty (results : dict (list QualityMetrics)) :
  NoDup (keys results) ->
  Forall (fun item => snd item <> []) results ->
  exists summary : dict Summary,
    analyze_results results = Ok summary /\
    keys summary = keys results /\
    forall (k : Method) (l : list QualityMetrics),
      In (k, l) results ->
      exists s : Summary,
        analyze_results_body l = Ok s /\ getitem summary k = Ok s.
Proof.
  intros Hnd Hne. unfold analyze_results.
  destruct (analyze_results_loop_spec results [] Hnd Hne)
    as (entries & Hall & Hrun).
  exists entries. split; [exact Hrun|].
  pose proof (summarised_keys _ _ Hall) as Hkeys.
  split; [exact Hkeys|].
  intros k l Hin.
  destruct (summarised_In _ _ k l Hall Hin) as (s & Hs & Hin').
  exists s. split; [exact Hs|].
  apply getitem_In; [|exact Hin'].
  unfold keys in *. rewrite Hkeys. exact Hnd.
Qed.

Lemma analyze_results_nonempty_witness :
  NoDup (keys zero_baseline_results) /\
  Forall (fun item => snd item <> []) zero_baseline_results /\
  exists summary : dict Summary,
    analyze_results zero_baseline_results = Ok summary /\
    keys summary = keys zero_baseline_results /\
    forall (k : Method) (l : list QualityMetrics),
      In (k, l) zero_baseline_results ->
      exists s : Summary,
        analyze_results_body l = Ok s /\ getitem summary k = Ok s.
Proof.
  assert (Hnd : NoDup (keys zero_baseline_results)).
  { cbn. repeat constructor; cbn; intuition discriminate. }
  assert (Hne : Forall (fun item => snd item <> []) zero_baseline_results).
  { repeat constructor; discriminate. }
  split; [exact Hnd|]. split; [exact Hne|].
  exact (analyze_results_nonempty zero_baseline_results Hnd Hne).
Defined.

(** ** The comparison *)

(** X14: the comparison needs all three methods: when the summary dict lacks
    any of them, [print_comparison_table] raises [KeyError]. *)
Theorem print_comparison_table_missing_method (summary : dict Summary)
    (k : Method) :
  getitem summary k = Raise KeyError ->
  print_comparison_table summary = Raise KeyError.
Proof.
  intros Hk. unfold print_comparison_table.
  destruct (getitem summary TRADITIONAL) as [t|e] eqn:Ht;
    cbn [bind Monad_pyresult].
  2: { now rewrite (getitem_raises_KeyError _ _ _ Ht). }
  destruct (getitem summary STRUCTURED) as [s|e] eqn:Hs;
    cbn [bind Monad_pyresult].
  2: { now rewrite (getitem_raises_KeyError _ _ _ Hs). }
  destruct (getitem summary METASPRINT) as [m|e] eqn:Hm;
    cbn [bind Monad_pyresult].
  2: { now rewrite (getitem_raises_KeyError _ _ _ Hm). }
  destruct k; congruence.
Qed.

Lemma print_comparison_table_missing_method_witness :
  getitem [(TRADITIONAL, summary_of_default); (METASPRINT, summary_of_gated)]
    STRUCTURED = Raise KeyError /\
  print_comparison_table
    [(TRADITIONAL, summary_of_default); (METASPRINT, summary_of_gated)] =
    Raise KeyError.
Proof.
  split; [reflexivity|].
  apply (print_comparison_table_missing_method _ STRUCTURED).
  reflexivity.
Defined.

(** The relative delta of two finite means over a positive baseline. *)
Lemma relative_delta (a b t : Q) :
  0 < t ->
  np_mul (np_div (np_sub (Fin a) (Fin b)) (Fin t)) (Fin 100) =
    Fin ((a - b) / t * 100).
Proof.
  intros Ht. cbn [np_sub np_div].
  assert (E : Qeq_bool t 0 = false).
  { destruct (Qeq_bool t 0) eqn:E; [|reflexivity].
    apply Qeq_bool_eq in E. lra. }
  rewrite E. reflexivity.
Qed.

Lemma relative_delta_positive (a b t : Q) :
  0 < t -> (0 < (a - b) / t * 100 <-> b < a).
Proof.
  intros Ht. unfold Qdiv.
  pose proof (Qinv_lt_0_compat t Ht) as Hi.
  generalize dependent (/ t). intros i Hi.
  split; intros Hlt; nra.
Qed.

Lemma comparison_signs_core (summary : dict Summary)
    (trad structured sprint : Summary) (tq te tt tr sq se st sr : Q) :
  getitem summary TRADITIONAL = Ok trad ->
  getitem summary STRUCTURED = Ok structured ->
  getitem summary METASPRINT = Ok sprint ->
  quality_mean trad = Fin tq -> quality_mean sprint = Fin sq ->
  error_rate_mean trad = Fin te -> error_rate_mean sprint = Fin se ->
  time_mean trad = Fin tt -> time_mean sprint = Fin st ->
  reproducibility_mean trad = Fin tr ->
  reproducibility_mean sprint = Fin sr ->
  0 < tq -> 0 < te -> 0 < tt -> 0 < tr ->
  exists kf : KeyFindings,
    print_comparison_table summary = Ok kf /\
    quality_improvement kf = Fin ((sq - tq) / tq * 100) /\
    error_reduction kf = Fin ((te - se) / te * 100) /\
    time_reduction kf = Fin ((tt - st) / tt * 100) /\
    repro_improvement kf = Fin ((sr - tr) / tr * 100) /\
    (float64_positive (quality_improvement kf) <-> tq < sq) /\
    (float64_positive (error_reduction kf) <-> se < te) /\
    (float64_positive (time_reduction kf) <-> st < tt) /\
    (float64_positive (repro_improvement kf) <-> tr < sr).
Proof.
  intros Ht Hs Hm Htq Hsq Hte Hse Htt Hst Htr Hsr Pq Pe Pt Pr.
  unfold print_comparison_table.
  rewrite Ht, Hs, Hm. cbn [bind ret Monad_pyresult].
  rewrite Htq, Hsq, Hte, Hse, Htt, Hst, Htr, Hsr.
  rewrite !relative_delta by assumption.
  eexists. split; [reflexivity|].
  cbn [quality_improvement error_reduction time_reduction repro_improvement
       float64_positive].
  repeat split; try reflexivity; try (now apply relative_delta_positive);
    try (intros; now apply relative_delta_positive).
Qed.



(** ** From a run to its key findings *)

Lemma np_mean_value (lo hi : Q) (xs : list Q) :
  xs <> [] -> Forall (between lo hi) xs ->
  exists q : Q, np_mean xs = Fin q /\ lo <= q /\ q <= hi.
Proof.
  intros Hne Hall.
  pose proof (np_mean_between lo hi xs Hne Hall) as Hb.
  rewrite (np_mean_nonempty xs Hne) in *.
  eexists. split; [reflexivity | exact Hb].
Qed.

(** The mean of a field over a non-empty sequence whose records keep the
    field within bounds. *)
Lemma field_mean (P : QualityMetrics -> Prop) (f : QualityMetrics -> Q)
    (lo hi : Q) (l : list QualityMetrics) :
  (forall m, P m -> between lo hi (f m)) ->
  l <> [] -> Forall P l ->
  exists q : Q, np_mean (map f l) = Fin q /\ lo <= q /\ q <= hi.
Proof.
  intros Hf Hne Hall.
  apply np_mean_value; [now apply map_nonempty|].
  apply Forall_map. revert Hall. apply Forall_impl. exact Hf.
Qed.

Lemma time_days_between (lo hi t : Z) :
  (lo <= t <= hi)%Z -> between (inject_Z lo) (inject_Z hi) (inject_Z t).
Proof.
  intros [Hlo Hhi]. split; rewrite <- Zle_Qle; assumption.
Qed.

(** X16: the whole pipeline on generated data: for at least one iteration the
    run, the aggregation and the comparison all succeed, the baseline
    means are never zero, and all four key findings are finite and
    strictly positive: the gated method always shows higher quality and
    reproducibility, and lower error rate and duration, than the
    baseline. *)
Theorem pipeline_key_findings_positive {G : Type} `{RandomSourceOk G}
    (n_iterations : Z) (g : G) :
  (1 <= n_iterations)%Z ->
  exists (results : dict (list QualityMetrics)) (g' : G)
         (summary : dict Summary) (kf : KeyFindings),
    run_simulation n_iterations g = Ok (results, g') /\
    analyze_results results = Ok summary /\
    print_comparison_table summary = Ok kf /\
    float64_positive (quality_improvement kf) /\
    float64_positive (error_reduction kf) /\
    float64_positive (time_reduction kf) /\
    float64_positive (repro_improvement kf).
Proof.
  intros Hn.
  destruct (run_simulation_records_in_range_core n_iterations g)
    as (lt & ls & lm & g' & Hrun & Ft & Fs & Fm).
  destruct (run_simulation_lengths_core n_iterations g)
    as (lt' & ls' & lm' & g'' & Hrun' & Lt & Ls & Lm).
  rewrite Hrun in Hrun'. injection Hrun' as <- <- <- <-.
  assert (Nt : lt <> []) by (intros ->; cbn in Lt; lia).
  assert (Ns : ls <> []) by (intros ->; cbn in Ls; lia).
  assert (Nm : lm <> []) by (intros ->; cbn in Lm; lia).
  set (results := [(TRADITIONAL, lt); (STRUCTURED, ls); (METASPRINT, lm)])
    in *.
  destruct (analyze_results_nonempty_core results)
    as (summary & Hsum & _ & Hget).
  { cbn. repeat constructor; cbn; intuition discriminate. }
  { repeat constructor; assumption. }
  destruct (Hget TRADITIONAL lt) as (trad & Bt & Gt); [now left|].
  destruct (Hget STRUCTURED ls) as (structured & Bs & Gs);
    [right; now left|].
  destruct (Hget METASPRINT lm) as (sprint & Bm & Gm);
    [right; right; now left|].
  destruct (analyze_results_body_fields _ _ Bt)
    as (Etq & _ & _ & Ete & _ & Ett & _ & Etr & _).
  destruct (analyze_results_body_fields _ _ Bm)
    as (Esq & _ & _ & Ese & _ & Est & _ & Esr & _).
  (* the baseline means *)
  destruct (field_mean traditional_range overall_quality 47.5 84.2 lt)
    as (tq & Htq & ? & ?); [apply traditional_quality | assumption.. |].
  destruct (field_mean traditional_range (fun m => error_rate m * 100)
              10 30 lt) as (te & Hte & ? & ?); [|assumption..|].
  { unfold traditional_range, between. intros m Hm. lra. }
  destruct (field_mean traditional_range
              (fun m => inject_Z (time_days m)) 90 365 lt)
    as (tt & Htt & ? & ?); [|assumption..|].
  { unfold traditional_range. intros m Hm.
    apply (time_days_between 90 365). tauto. }
  destruct (field_mean traditional_range (fun m => reproducibility m * 100)
              30 60 lt) as (tr & Htr & ? & ?); [|assumption..|].
  { unfold traditional_range, between. intros m Hm. lra. }
  (* the gated means *)
  destruct (field_mean metasprint_range overall_quality 95.4 100 lm)
    as (sq & Hsq & ? & ?); [apply metasprint_quality | assumption.. |].
  destruct (field_mean metasprint_range (fun m => error_rate m * 100)
              1 3 lm) as (se & Hse & ? & ?); [|assumption..|].
  { unfold metasprint_range, between. intros m Hm. lra. }
  destruct (field_mean metasprint_range
              (fun m => inject_Z (time_days m)) 40 45 lm)
    as (st & Hst & ? & ?); [|assumption..|].
  { unfold metasprint_range. intros m Hm.
    apply (time_days_between 40 45). lia. }
  destruct (field_mean metasprint_range (fun m => reproducibility m * 100)
              75 98 lm) as (sr & Hsr & ? & ?); [|assumption..|].
  { unfold metasprint_range, between. intros m Hm. lra. }
  destruct (comparison_signs_core summary trad structured sprint
              tq te tt tr sq se st sr)
    as (kf & Hkf & _ & _ & _ & _ & Iq & Ie & It & Ir);
    try assumption; try congruence; try lra.
  exists results, g', summary, kf.
  split; [exact Hrun|]. split; [exact Hsum|]. split; [exact Hkf|].
  split; [apply Iq; lra|]. split; [apply Ie; lra|].
  split; [apply It; lra | apply Ir; lra].
Qed.

Lemma pipeline_key_findings_positive_witness :
  RandomSourceOk Scripted.state /\ (1 <= 2)%Z /\
  exists (results : dict (list QualityMetrics)) (g' : Scripted.state)
         (summary : dict Summary) (kf : KeyFindings),
    run_simulation 2 script_mixed = Ok (results, g') /\
    analyze_results results = Ok summary /\
    print_comparison_table summary = Ok kf /\
    float64_positive (quality_improvement kf) /\
    float64_positive (error_reduction kf) /\
    float64_positive (time_reduction kf) /\
    float64_positive (repro_improvement kf).
Proof.
  split; [exact Scripted_ok|].
  assert (Hn : (1 <= 2)%Z) by lia.
  split; [exact Hn|].
  exact (pipeline_key_findings_positive (G := Scripted.state) 2
           script_mixed Hn).
Defined.

(** ** More on the composite score *)

Lemma py_min_monotone (a b c : Q) : a <= b -> py_min a c <= py_min b c.
Proof.
  intros Hab. rewrite !py_min_Qmin.
  apply Q.min_le_compat_r. exact Hab.
Qed.

(** X7: the score never decreases when adherence, accuracy, reproducibility or
    audit readiness rise, when the error rate falls, or when a flag gets
    set. *)
Theorem overall_quality_monotone (m m' : QualityMetrics) :
  protocol_adherence m <= protocol_adherence m' ->
  data_accuracy m <= data_accuracy m' ->
  reproducibility m <= reproducibility m' ->
  audit_readiness m <= audit_readiness m' ->
  error_rate m' <= error_rate m ->
  (grade_completed m = true -> grade_completed m' = true) ->
  (deviations_logged m = true -> deviations_logged m' = true) ->
  overall_quality m <= overall_quality m'.
Proof.
  intros Hp Hd Hr Ha He Hg Hl.
  unfold overall_quality, weights.protocol_adherence, weights.data_accuracy,
    weights.reproducibility, weights.audit_readiness, weights.error_rate.
  apply py_min_monotone.
  destruct (grade_completed m), (grade_completed m');
    try (specialize (Hg eq_refl); discriminate);
    destruct (deviations_logged m), (deviations_logged m');
    try (specialize (Hl eq_refl); discriminate); lra.
Qed.

Lemma overall_quality_monotone_witness :
  protocol_adherence sample_baseline_record <=
    protocol_adherence sample_gated_record /\
  data_accuracy sample_baseline_record <= data_accuracy sample_gated_record /\
  reproducibility sample_baseline_record <=
    reproducibility sample_gated_record /\
  audit_readiness sample_baseline_record <=
    audit_readiness sample_gated_record /\
  error_rate sample_gated_record <= error_rate sample_baseline_record /\
  (grade_completed sample_baseline_record = true ->
   grade_completed sample_gated_record = true) /\
  (deviations_logged sample_baseline_record = true ->
   deviations_logged sample_gated_record = true) /\
  overall_quality sample_baseline_record <=
    overall_quality sample_gated_record.
Proof.
  assert (Hp : protocol_adherence sample_baseline_record <=
               protocol_adherence sample_gated_record) by discriminate.
  assert (Hd : data_accuracy sample_baseline_record <=
               data_accuracy sample_gated_record) by discriminate.
  assert (Hr : reproducibility sample_baseline_record <=
               reproducibility sample_gated_record) by discriminate.
  assert (Ha : audit_readiness sample_baseline_record <=
               audit_readiness sample_gated_record) by discriminate.
  assert (He : error_rate sample_gated_record <=
               error_rate sample_baseline_record) by discriminate.
  assert (Hg : grade_completed sample_baseline_record = true ->
               grade_completed sample_gated_record = true) by reflexivity.
  assert (Hl : deviations_logged sample_baseline_record = true ->
               deviations_logged sample_gated_record = true) by reflexivity.
  repeat (split; [assumption|]).
  exact (overall_quality_monotone sample_baseline_record sample_gated_record
           Hp Hd Hr Ha He Hg Hl).
Defined.

(** Case analysis on every [Qmin] of the goal. *)
Ltac split_Qmin :=
  repeat match goal with
  | |- context [Qmin ?a ?b] =>
      let E := fresh "E" in
      let v := fresh "v" in
      let Hv := fresh "Hv" in
      destruct (Q.min_spec a b) as [[? E] | [? E]];
      remember (Qmin a b) as v eqn:Hv in *; clear Hv
  | H : context [Qmin ?a ?b] |- _ =>
      let E := fresh "E" in
      let v := fresh "v" in
      let Hv := fresh "Hv" in
      destruct (Q.min_spec a b) as [[? E] | [? E]];
      remember (Qmin a b) as v eqn:Hv in *; clear Hv
  end.

(** X8: on a record within its domain, setting a flag that was not set is
    worth five points, up to the cap of 100 and to the rounding tolerance:
    the new score is within the tolerance of the smaller of the old score
    plus 5 and 100.  Setting a flag that was set changes nothing. *)
Theorem overall_quality_flag_bonus (m : QualityMetrics) :
  in_domain m ->
  (if grade_completed m
   then overall_quality (set_grade_completed true m) == overall_quality m
   else within (Qmin (overall_quality m + 5) 100)
          (Qmin (overall_quality m + 5) 100)
          (overall_quality (set_grade_completed true m))) /\
  (if deviations_logged m
   then overall_quality (set_deviations_logged true m) == overall_quality m
   else within (Qmin (overall_quality m + 5) 100)
          (Qmin (overall_quality m + 5) 100)
          (overall_quality (set_deviations_logged true m))).
Proof.
  intros _.
  split;
    unfold within, tolerance, overall_quality, weights.protocol_adherence,
      weights.data_accuracy, weights.reproducibility,
      weights.audit_readiness, weights.error_rate;
    cbn [set_grade_completed set_deviations_logged protocol_adherence
         data_accuracy reproducibility audit_readiness error_rate
         grade_completed deviations_logged];
    destruct (grade_completed m), (deviations_logged m);
    cbv beta iota zeta; rewrite ?py_min_Qmin;
    try reflexivity; split_Qmin; split; lra.
Qed.

Lemma overall_quality_flag_bonus_witness :
  in_domain sample_baseline_record /\
  (if grade_completed sample_baseline_record
   then overall_quality (set_grade_completed true sample_baseline_record) ==
          overall_quality sample_baseline_record
   else within (Qmin (overall_quality sample_baseline_record + 5) 100)
          (Qmin (overall_quality sample_baseline_record + 5) 100)
          (overall_quality
             (set_grade_completed true sample_baseline_record))) /\
  (if deviations_logged sample_baseline_record
   then overall_quality
          (set_deviations_logged true sample_baseline_record) ==
          overall_quality sample_baseline_record
   else within (Qmin (overall_quality sample_baseline_record + 5) 100)
          (Qmin (overall_quality sample_baseline_record + 5) 100)
          (overall_quality
             (set_deviations_logged true sample_baseline_record))).
Proof.
  assert (Hdom : in_domain sample_baseline_record).
  { unfold in_domain, in_unit. cbn. repeat split; discriminate. }
  split; [exact Hdom|].
  exact (overall_quality_flag_bonus sample_baseline_record Hdom).
Defined.

(** ** Longer runs extend shorter ones *)

Lemma run_simulation_loop_snoc {G : Type} `{RandomSource G} (n : nat) :
  forall (results : dict (list QualityMetrics)) (g : G),
  run_simulation_loop (S n) results g =
    match run_simulation_loop n results g with
    | Ok (results', g') => run_simulation_loop 1 results' g'
    | Raise e => Raise e
    end.
Proof.
  induction n as [|n IH]; intros results g; [reflexivity|].
  change (run_simulation_loop (S (S n)) results g) with
    (match append_trial TRADITIONAL (simulate_traditional 40 6) results g with
     | Ok (r1, g1) =>
         match append_trial STRUCTURED (simulate_structured 40 6) r1 g1 with
         | Ok (r2, g2) =>
             match append_trial METASPRINT (simulate_metasprint 40 12) r2 g2
             with
             | Ok (r3, g3) => run_simulation_loop (S n) r3 g3
             | Raise e => Raise e
             end
         | Raise e => Raise e
         end
     | Raise e => Raise e
     end).
  change (run_simulation_loop (S n) results g) with
    (match append_trial TRADITIONAL (simulate_traditional 40 6) results g with
     | Ok (r1, g1) =>
         match append_trial STRUCTURED (simulate_structured 40 6) r1 g1 with
         | Ok (r2, g2) =>
             match append_trial METASPRINT (simulate_metasprint 40 12) r2 g2
             with
             | Ok (r3, g3) => run_simulation_loop n r3 g3
             | Raise e => Raise e
             end
         | Raise e => Raise e
         end
     | Raise e => Raise e
     end).
  destruct (append_trial TRADITIONAL _ results g) as [[r1 g1]|e];
    [|reflexivity].
  destruct (append_trial STRUCTURED _ r1 g1) as [[r2 g2]|e]; [|reflexivity].
  destruct (append_trial METASPRINT _ r2 g2) as [[r3 g3]|e]; [|reflexivity].
  apply IH.
Qed.

(** X6: one more iteration only appends: the run with [n + 1] iterations gives
    the sequences of the run with [n] iterations, each followed by one more
    record, drawn in the order traditional, structured, META-SPRINT from
    the state of the random source the shorter run ended in. *)
Theorem run_simulation_extends {G : Type} `{RandomSource G}
    (n_iterations : Z) (g : G) :
  (0 <= n_iterations)%Z ->
  exists (lt ls lm : list QualityMetrics) (g1 : G),
    run_simulation n_iterations g =
      Ok ([(TRADITIONAL, lt); (STRUCTURED, ls); (METASPRINT, lm)], g1) /\
    let t := simulate_traditional 40 6 g1 in
    let s := simulate_structured 40 6 (snd t) in
    let m := simulate_metasprint 40 12 (snd s) in
    run_simulation (n_iterations + 1) g =
      Ok ([(TRADITIONAL, lt ++ [fst t]); (STRUCTURED, ls ++ [fst s]);
           (METASPRINT, lm ++ [fst m])], snd m).
Proof.
  intros Hn.
  destruct (run_simulation_lengths_core n_iterations g)
    as (lt & ls & lm & g1 & Hrun & _).
  exists lt, ls, lm, g1. split; [exact Hrun|].
  unfold run_simulation in *.
  replace (Z.to_nat (n_iterations + 1)) with (S (Z.to_nat n_iterations))
    by lia.
  rewrite run_simulation_loop_snoc, Hrun.
  reflexivity.
Qed.

Lemma run_simulation_extends_witness :
  (0 <= 1)%Z /\
  exists (lt ls lm : list QualityMetrics) (g1 : Scripted.state),
    run_simulation 1 script_mixed =
      Ok ([(TRADITIONAL, lt); (STRUCTURED, ls); (METASPRINT, lm)], g1) /\
    let t := simulate_traditional 40 6 g1 in
    let s := simulate_structured 40 6 (snd t) in
    let m := simulate_metasprint 40 12 (snd s) in
    run_simulation (1 + 1) script_mixed =
      Ok ([(TRADITIONAL, lt ++ [fst t]); (STRUCTURED, ls ++ [fst s]);
           (METASPRINT, lm ++ [fst m])], snd m).
Proof.
  assert (Hn : (0 <= 1)%Z) by lia.
  split; [exact Hn|].
  exact (run_simulation_extends (G := Scripted.state) 1 script_mixed Hn).
Defined.

(** ** Percentiles *)

Lemma insert_sorted_Forall (P : Q -> Prop) (x : Q) (l : list Q) :
  P x -> Forall P l -> Forall P (insert_sorted x l).
Proof.
  intros Hx. induction 1 as [|y l Hy Hl IH]; cbn.
  - constructor; [exact Hx | constructor].
  - destruct (Qle_bool x y); repeat constructor; assumption.
Qed.

Lemma sorted_Forall (P : Q -> Prop) (xs : list Q) :
  Forall P xs -> Forall P (sorted xs).
Proof.
  induction 1 as [|x xs Hx _ IH]; cbn; [constructor|].
  now apply insert_sorted_Forall.
Qed.

Lemma insert_sorted_length (x : Q) (l : list Q) :
  length (insert_sorted x l) = S (length l).
Proof.
  induction l as [|y l IH]; cbn; [reflexivity|].
  destruct (Qle_bool x y); cbn; [reflexivity | now rewrite IH].
Qed.

Lemma sorted_length (xs : list Q) : length (sorted xs) = length xs.
Proof.
  induction xs as [|x xs IH]; [reflexivity|].
  change (sorted (x :: xs)) with (insert_sorted x (sorted xs)).
  rewrite insert_sorted_length, IH. reflexivity.
Qed.

Lemma insert_sorted_ascending (x : Q) (l : list Q) :
  StronglySorted Qle l -> StronglySorted Qle (insert_sorted x l).
Proof.
  induction 1 as [|y l Hl IH Hy]; cbn.
  - repeat constructor.
  - destruct (Qle_bool x y) eqn:E.
    + apply Qle_bool_iff in E.
      constructor; [now constructor|].
      constructor; [exact E|].
      revert Hy. apply Forall_impl. intros z Hz. lra.
    + assert (Hyx : y <= x).
      { destruct (Qlt_le_dec x y) as [Hlt | Hle]; [|exact Hle].
        assert (Hxy : Qle_bool x y = true) by (apply Qle_bool_iff; lra).
        congruence. }
      constructor; [exact IH|].
      apply insert_sorted_Forall; assumption.
Qed.

Lemma sorted_ascending (xs : list Q) : StronglySorted Qle (sorted xs).
Proof.
  induction xs as [|x xs IH]; cbn; [constructor|].
  now apply insert_sorted_ascending.
Qed.

Lemma nth_Forall (P : Q -> Prop) (l : list Q) (d : Q) (i : nat) :
  Forall P l -> P d -> P (nth i l d).
Proof.
  intros Hl Hd. revert i.
  induction Hl as [|x l Hx _ IH]; intros [|i]; cbn; auto.
Qed.

Lemma nth_ascending (l : list Q) (d : Q) :
  StronglySorted Qle l ->
  forall i j : nat, (i <= j < length l)%nat -> nth i l d <= nth j l d.
Proof.
  induction 1 as [|x l Hl IH Hx]; intros i j Hij; cbn in Hij; [lia|].
  destruct i as [|i], j as [|j]; cbn; try lia.
  - lra.
  - rewrite Forall_forall in Hx. apply Hx. apply nth_In. lia.
  - apply IH. lia.
Qed.

Lemma sorted_nonempty (xs : list Q) : xs <> [] -> sorted xs <> [].
Proof.
  intros Hne E. apply (f_equal (@length Q)) in E.
  rewrite sorted_length in E. destruct xs; [congruence | discriminate].
Qed.

Lemma np_percentile_interpolate (xs : list Q) (q : Q) :
  xs <> [] ->
  np_percentile xs q = Fin (interpolate (sorted xs) (hd 0 (sorted xs)) q).
Proof.
  intros Hne. pose proof (sorted_nonempty xs Hne) as Hs.
  unfold np_percentile.
  destruct (sorted xs) as [|d s]; [congruence | reflexivity].
Qed.

Section Interpolation.
Variables (s : list Q) (d q : Q).
Hypothesis s_nonempty : s <> [].
Hypothesis q_low : 0 <= q.
Hypothesis q_high : q <= 100.

Let n : Z := Z.of_nat (length s).
Let pos : Q := inject_Z (n - 1) * (q / 100).
Let lo : Z := Qfloor pos.
Let hi : Z := Z.min (lo + 1) (n - 1).

Lemma interpolate_n_pos : (1 <= n)%Z.
Proof.
  subst n. destruct s; [congruence | cbn [length]; lia].
Qed.

Lemma interpolate_pos_range : 0 <= pos /\ pos <= inject_Z (n - 1).
Proof.
  pose proof interpolate_n_pos as Hn.
  assert (HN : 0 <= inject_Z (n - 1)).
  { change 0 with (inject_Z 0). rewrite <- Zle_Qle. lia. }
  assert (Hr0 : 0 <= q / 100) by (apply Qle_shift_div_l; lra).
  assert (Hr1 : q / 100 <= 1) by (apply Qle_shift_div_r; lra).
  subst pos. generalize dependent (q / 100). intros r Hr0 Hr1.
  generalize dependent (inject_Z (n - 1)). intros N HN.
  split; nra.
Qed.

Lemma interpolate_lo_range : (0 <= lo <= n - 1)%Z.
Proof.
  destruct interpolate_pos_range as [H0 H1]. subst lo. split.
  - change 0%Z with (Qfloor 0). now apply Qfloor_resp_le.
  - rewrite <- (Qfloor_Z (n - 1)). now apply Qfloor_resp_le.
Qed.

Lemma interpolate_frac_range :
  0 <= pos - inject_Z lo /\ pos - inject_Z lo < 1.
Proof.
  subst lo. pose proof (Qfloor_le pos) as Hle.
  pose proof (Qlt_floor pos) as Hlt. rewrite inject_Z_plus in Hlt.
  change (inject_Z 1) with 1 in Hlt. split; lra.
Qed.

(** The percentile lies between the two elements it interpolates. *)
Lemma interpolate_neighbours :
  StronglySorted Qle s ->
  nth (Z.to_nat lo) s d <= interpolate s d q /\
  interpolate s d q <= nth (Z.to_nat hi) s d.
Proof.
  intros Hs.
  pose proof interpolate_lo_range as Hlo.
  destruct interpolate_frac_range as [Hf0 Hf1].
  assert (Hab : nth (Z.to_nat lo) s d <= nth (Z.to_nat hi) s d).
  { apply nth_ascending; [exact Hs|]. subst hi n. lia. }
  unfold interpolate. fold n. fold pos. fold lo. fold hi.
  generalize dependent (pos - inject_Z lo). intros f Hf0 Hf1.
  generalize dependent (nth (Z.to_nat lo) s d). intros a.
  generalize (nth (Z.to_nat hi) s d). intros b Hab.
  split; nra.
Qed.

(** The percentile stays within any bounds of the elements. *)
Lemma interpolate_between (l h : Q) :
  Forall (between l h) s -> between l h d ->
  between l h (interpolate s d q).
Proof.
  intros Hall Hd.
  destruct interpolate_frac_range as [Hf0 Hf1].
  pose proof (nth_Forall _ s d (Z.to_nat lo) Hall Hd) as Ha.
  pose proof (nth_Forall _ s d (Z.to_nat hi) Hall Hd) as Hb.
  unfold interpolate. fold n. fold pos. fold lo. fold hi.
  generalize dependent (pos - inject_Z lo). intros f Hf0 Hf1.
  generalize dependent (nth (Z.to_nat lo) s d). intros a Ha.
  generalize dependent (nth (Z.to_nat hi) s d). intros b Hb.
  unfold between in *. split; nra.
Qed.
End Interpolation.

Lemma Qmult_le_left (k r1 r2 : Q) : 0 <= k -> r1 <= r2 -> k * r1 <= k * r2.
Proof.
  intros Hk Hr. nra.
Qed.

Lemma interpolation_step (a b f1 f2 : Q) :
  a <= b -> f1 <= f2 -> a + (b - a) * f1 <= a + (b - a) * f2.
Proof.
  intros Hab Hf. nra.
Qed.

(** A higher percentile is never the smaller value. *)
Lemma interpolate_monotone (s : list Q) (d q1 q2 : Q) :
  s <> [] -> StronglySorted Qle s ->
  0 <= q1 -> q1 <= q2 -> q2 <= 100 ->
  interpolate s d q1 <= interpolate s d q2.
Proof.
  intros Hne Hs H0 H12 H100.
  assert (Hq1 : q1 <= 100) by lra.
  assert (Hq2 : 0 <= q2) by lra.
  pose proof (interpolate_neighbours s d q1 Hne H0 Hq1 Hs) as [_ Hup1].
  pose proof (interpolate_neighbours s d q2 Hne Hq2 H100 Hs) as [Hlow2 _].
  pose proof (interpolate_lo_range s q1 Hne H0 Hq1) as Hlo1.
  pose proof (interpolate_lo_range s q2 Hne Hq2 H100) as Hlo2.
  pose proof (interpolate_pos_range s q1 Hne H0 Hq1) as Hp1.
  set (n := Z.of_nat (length s)) in *.
  set (pos1 := inject_Z (n - 1) * (q1 / 100)) in *.
  set (pos2 := inject_Z (n - 1) * (q2 / 100)) in *.
  assert (Hpos : pos1 <= pos2).
  { subst pos1 pos2. apply Qmult_le_left.
    - change 0 with (inject_Z 0). rewrite <- Zle_Qle. lia.
    - unfold Qdiv. apply Qmult_le_compat_r; [exact H12 | discriminate]. }
  pose proof (Qfloor_resp_le _ _ Hpos) as Hfloor.
  set (lo1 := Qfloor pos1) in *. set (lo2 := Qfloor pos2) in *.
  destruct (Z.eq_dec lo1 lo2) as [Heq | Hneq].
  - (* the same pair of neighbours, a larger fraction *)
    assert (Hab : nth (Z.to_nat lo1) s d <=
                  nth (Z.to_nat (Z.min (lo1 + 1) (n - 1))) s d).
    { apply nth_ascending; [exact Hs|]. subst n. lia. }
    unfold interpolate. fold n. fold pos1. fold pos2. fold lo1. fold lo2.
    rewrite <- Heq.
    apply interpolation_step; [exact Hab | lra].
  - (* the upper neighbour of the first is below the lower of the second *)
    apply Qle_trans with (nth (Z.to_nat (Z.min (lo1 + 1) (n - 1))) s d);
      [exact Hup1|].
    apply Qle_trans with (nth (Z.to_nat lo2) s d); [|exact Hlow2].
    apply nth_ascending; [exact Hs|]. subst n. lia.
Qed.

(** X12: the empirical 95% interval of a summary is well formed: for any
    non-empty sequence its lower end is at most its upper end, and both
    ends lie within any bounds of the scores; for records within their
    domains the interval lies in [[0, 100]]. *)
Theorem quality_interval_well_formed (l : list QualityMetrics) :
  l <> [] ->
  exists s : Summary,
    analyze_results_body l = Ok s /\
    float64_le (fst (quality_95ci s)) (snd (quality_95ci s)) /\
    (Forall in_domain l ->
     float64_between 0 100 (fst (quality_95ci s)) /\
     float64_between 0 100 (snd (quality_95ci s))).
Proof.
  intros Hne.
  destruct (analyze_results_body_ok l Hne) as [s Hs].
  exists s. split; [exact Hs|].
  destruct (analyze_results_body_fields _ _ Hs)
    as (_ & _ & -> & _). cbn [fst snd].
  set (xs := map overall_quality l).
  assert (Hxs : xs <> []) by now apply map_nonempty.
  rewrite !(np_percentile_interpolate xs _ Hxs).
  pose proof (sorted_nonempty xs Hxs) as Hsorted.
  set (d := hd 0 (sorted xs)).
  split.
  - cbn.
    apply interpolate_monotone; [exact Hsorted | apply sorted_ascending | | | ];
      lra.
  - intros Hall.
    assert (Hb : Forall (between 0 100) (sorted xs)).
    { apply sorted_Forall. subst xs. apply Forall_map.
      revert Hall. apply Forall_impl. unfold in_domain, between. tauto. }
    assert (Bd : between 0 100 d).
    { subst d. destruct (sorted xs) as [|x0 s0]; [congruence|].
      inversion Hb; assumption. }
    split; cbn; now apply interpolate_between.
Qed.

Lemma quality_interval_well_formed_witness :
  [sample_baseline_record; sample_gated_record] <> [] /\
  exists s : Summary,
    analyze_results_body [sample_baseline_record; sample_gated_record] =
      Ok s /\
    float64_le (fst (quality_95ci s)) (snd (quality_95ci s)) /\
    (Forall in_domain [sample_baseline_record; sample_gated_record] ->
     float64_between 0 100 (fst (quality_95ci s)) /\
     float64_between 0 100 (snd (quality_95ci s))).
Proof.
  assert (Hne : [sample_baseline_record; sample_gated_record] <> [])
    by discriminate.
  split; [exact Hne|].
  exact (quality_interval_well_formed _ Hne).
Defined.
